(** * The nRF9160 TCP client sample (samples/nrf9160/tcp_client/src/main.c)

    A shallow embedding of the sample's [main.c].  The sample is sequential
    glue over three external services: the LTE link-control library, the
    BSD socket layer and the kernel's delayed-work and semaphore primitives.
    Every call into those services is an operation of a small state monad;
    what the service answers is read from an oracle ([world]) and every
    call is appended to a chronological trace, so that statements about
    "what the program did" are statements about that trace. *)

From Stdlib Require Import ZArith String List Lia.
From stdpp Require Import base gmap sets list strings.

Local Open Scope string_scope.
Local Open Scope list_scope.

(** ** Build-time configuration *)

(** The Kconfig symbols [main.c] reads.  [CONFIG_LTE_LINK_CONTROL] gates the
    [#if defined(...)] blocks, the other booleans are read by [IS_ENABLED]. *)
Record config := {
  CONFIG_TCP_DATA_UPLOAD_SIZE_BYTES : Z;
  CONFIG_TCP_DATA_UPLOAD_FREQUENCY_SECONDS : Z;
  CONFIG_TCP_SERVER_ADDRESS_STATIC : string;
  CONFIG_TCP_SERVER_PORT : Z;
  CONFIG_LTE_LINK_CONTROL : bool;
  CONFIG_TCP_PSM_ENABLE : bool;
  CONFIG_TCP_EDRX_ENABLE : bool;
  CONFIG_TCP_RAI_ENABLE : bool;
  CONFIG_LTE_AUTO_INIT_AND_CONNECT : bool
}.

(** [#define TCP_IP_HEADER_SIZE 28] *)
Definition TCP_IP_HEADER_SIZE : Z := 28.

(** ** Data of the external interfaces *)

Inductive sa_family := AF_UNSPEC | AF_INET.
Inductive sock_type := SOCK_STREAM.
Inductive ip_protocol := IPPROTO_TCP.

(** [struct sockaddr_in] as stored in the static [host_addr]. *)
Record sockaddr_in := {
  sin_family : sa_family;
  sin_port : Z;
  sin_addr : Z
}.

(** Timeouts handed to the kernel; the macros are kept symbolic. *)
Inductive k_timeout := K_NO_WAIT | K_SECONDS (s : Z) | K_FOREVER.

(** A [float] of [struct lte_lc_edrx_cfg], as its bit pattern: the sample
    only passes it on to [snprintf]. *)
Definition c_float := Z.

Inductive lte_lc_nw_reg_status :=
  | LTE_LC_NW_REG_NOT_REGISTERED
  | LTE_LC_NW_REG_REGISTERED_HOME
  | LTE_LC_NW_REG_SEARCHING
  | LTE_LC_NW_REG_REGISTRATION_DENIED
  | LTE_LC_NW_REG_UNKNOWN
  | LTE_LC_NW_REG_REGISTERED_ROAMING
  | LTE_LC_NW_REG_REGISTERED_EMERGENCY
  | LTE_LC_NW_REG_UICC_FAIL.

Inductive lte_lc_rrc_mode := LTE_LC_RRC_MODE_IDLE | LTE_LC_RRC_MODE_CONNECTED.

#[global] Instance lte_lc_nw_reg_status_eq_dec : EqDecision lte_lc_nw_reg_status.
Proof. solve_decision. Defined.

#[global] Instance lte_lc_rrc_mode_eq_dec : EqDecision lte_lc_rrc_mode.
Proof. solve_decision. Defined.

(** [struct lte_lc_evt]: the [type] tag together with the member of the
    union that the handler reads under that tag.  [LTE_LC_EVT_OTHER] stands
    for every enumerator the [switch] sends to [default]. *)
Inductive lte_lc_evt :=
  | LTE_LC_EVT_NW_REG_STATUS (nw_reg_status : lte_lc_nw_reg_status)
  | LTE_LC_EVT_PSM_UPDATE (tau active_time : Z)
  | LTE_LC_EVT_EDRX_UPDATE (edrx ptw : c_float)
  | LTE_LC_EVT_RRC_UPDATE (rrc_mode : lte_lc_rrc_mode)
  | LTE_LC_EVT_CELL_UPDATE (id tac : Z)
  | LTE_LC_EVT_OTHER (type : Z).

(** ** Observable calls *)

Inductive printk_arg := ArgInt (n : Z) | ArgStr (s : string).

(** One entry per call that leaves the program, with its arguments and,
    where the program can see it, its return value. *)
Inductive event :=
  | Printk (fmt : string) (args : list printk_arg)
  | Socket (family : sa_family) (type : sock_type) (proto : ip_protocol) (ret : Z)
  | Connect (fd : Z) (addr : sockaddr_in) (ret : Z)
  | Send (fd : Z) (buf : list Byte.byte) (len : Z) (flags : Z) (ret : Z)
  | Close (fd : Z) (ret : Z)
  | InetPton (family : sa_family) (src : string) (ret : Z)
  | WorkInit
  | WorkSubmit (delay : k_timeout)
  | SemGive
  | SemTake (timeout : k_timeout)
  | PsmReq (enable : bool) (ret : Z)
  | EdrxReq (enable : bool) (ret : Z)
  | RaiReq (enable : bool) (ret : Z)
  | InitAndConnectAsync (ret : Z).

(** ** The environment *)

(** What the external services answer.  A socket-layer answer is a pair of
    the call's return value and the [errno] it leaves on failure.  [os_send]
    is indexed by the number of [send] calls made before, so that
    successive firings may get different answers. *)
Record world := {
  os_socket : Z * Z;
  os_connect : Z -> Z * Z;
  os_send : nat -> Z * Z;
  os_inet_pton : string -> option Z;
  libc_snprintf : c_float -> c_float -> Z * string;
  modem_psm_req : bool -> Z;
  modem_edrx_req : bool -> Z;
  modem_rai_req : bool -> Z;
  modem_init_and_connect_async : Z
}.

Definition EBADF : Z := 9.

(** ** Program state *)

(** The statics of [main.c] ([client_fd], [host_addr], the work item
    [server_transmission_work], the semaphore [lte_connected]) and the part
    of the services' state the program depends on. *)
Record state := {
  client_fd : Z;
  host_addr : sockaddr_in;
  errno : Z;
  lte_connected : nat;
  work_initialised : bool;
  work_pending : option k_timeout;
  lte_evt_handler : bool;
  open_fds : gset Z;
  n_send : nat;
  trace : list event
}.

(** [K_SEM_DEFINE(lte_connected, 0, 1)]: initial count 0, limit 1. *)
Definition lte_connected_limit : nat := 1.

Definition initial_state : state := {|
  client_fd := 0;
  host_addr := {| sin_family := AF_UNSPEC; sin_port := 0; sin_addr := 0 |};
  errno := 0;
  lte_connected := 0;
  work_initialised := false;
  work_pending := None;
  lte_evt_handler := false;
  open_fds := ∅;
  n_send := 0;
  trace := []
|}.

Definition set_client_fd (v : Z) (s : state) : state :=
  {| client_fd := v; host_addr := host_addr s; errno := errno s;
     lte_connected := lte_connected s; work_initialised := work_initialised s;
     work_pending := work_pending s; lte_evt_handler := lte_evt_handler s;
     open_fds := open_fds s; n_send := n_send s; trace := trace s |}.

Definition set_host_addr (v : sockaddr_in) (s : state) : state :=
  {| client_fd := client_fd s; host_addr := v; errno := errno s;
     lte_connected := lte_connected s; work_initialised := work_initialised s;
     work_pending := work_pending s; lte_evt_handler := lte_evt_handler s;
     open_fds := open_fds s; n_send := n_send s; trace := trace s |}.

Definition set_errno (v : Z) (s : state) : state :=
  {| client_fd := client_fd s; host_addr := host_addr s; errno := v;
     lte_connected := lte_connected s; work_initialised := work_initialised s;
     work_pending := work_pending s; lte_evt_handler := lte_evt_handler s;
     open_fds := open_fds s; n_send := n_send s; trace := trace s |}.

Definition set_lte_connected (v : nat) (s : state) : state :=
  {| client_fd := client_fd s; host_addr := host_addr s; errno := errno s;
     lte_connected := v; work_initialised := work_initialised s;
     work_pending := work_pending s; lte_evt_handler := lte_evt_handler s;
     open_fds := open_fds s; n_send := n_send s; trace := trace s |}.

Definition set_work_initialised (v : bool) (s : state) : state :=
  {| client_fd := client_fd s; host_addr := host_addr s; errno := errno s;
     lte_connected := lte_connected s; work_initialised := v;
     work_pending := work_pending s; lte_evt_handler := lte_evt_handler s;
     open_fds := open_fds s; n_send := n_send s; trace := trace s |}.

Definition set_work_pending (v : option k_timeout) (s : state) : state :=
  {| client_fd := client_fd s; host_addr := host_addr s; errno := errno s;
     lte_connected := lte_connected s; work_initialised := work_initialised s;
     work_pending := v; lte_evt_handler := lte_evt_handler s;
     open_fds := open_fds s; n_send := n_send s; trace := trace s |}.

Definition set_lte_evt_handler (v : bool) (s : state) : state :=
  {| client_fd := client_fd s; host_addr := host_addr s; errno := errno s;
     lte_connected := lte_connected s; work_initialised := work_initialised s;
     work_pending := work_pending s; lte_evt_handler := v;
     open_fds := open_fds s; n_send := n_send s; trace := trace s |}.

Definition set_open_fds (v : gset Z) (s : state) : state :=
  {| client_fd := client_fd s; host_addr := host_addr s; errno := errno s;
     lte_connected := lte_connected s; work_initialised := work_initialised s;
     work_pending := work_pending s; lte_evt_handler := lte_evt_handler s;
     open_fds := v; n_send := n_send s; trace := trace s |}.

Definition set_n_send (v : nat) (s : state) : state :=
  {| client_fd := client_fd s; host_addr := host_addr s; errno := errno s;
     lte_connected := lte_connected s; work_initialised := work_initialised s;
     work_pending := work_pending s; lte_evt_handler := lte_evt_handler s;
     open_fds := open_fds s; n_send := v; trace := trace s |}.

Definition append_trace (evs : list event) (s : state) : state :=
  {| client_fd := client_fd s; host_addr := host_addr s; errno := errno s;
     lte_connected := lte_connected s; work_initialised := work_initialised s;
     work_pending := work_pending s; lte_evt_handler := lte_evt_handler s;
     open_fds := open_fds s; n_send := n_send s; trace := trace s ++ evs |}.

Definition emit (e : event) (s : state) : state := append_trace [e] s.

(** ** The monad of the embedding *)

Definition M (A : Type) : Type := state -> A * state.

Definition ret {A : Type} (a : A) : M A := fun s => (a, s).

Definition bind {A B : Type} (m : M A) (k : A -> M B) : M B :=
  fun s => let (a, s') := m s in k a s'.

Definition exec {A : Type} (m : M A) (s : state) : state := snd (m s).
Definition result {A : Type} (m : M A) (s : state) : A := fst (m s).

Declare Scope prog_scope.
Delimit Scope prog_scope with prog.
Notation "x <- m ;; k" := (bind m (fun x => k))
  (at level 100, m at next level, k at level 200, right associativity) : prog_scope.
Notation "m ;;; k" := (bind m (fun _ => k))
  (at level 100, k at level 200, right associativity) : prog_scope.
Local Open Scope prog_scope.

Definition get {A : Type} (f : state -> A) : M A := fun s => (f s, s).
Definition modify (f : state -> state) : M unit := fun s => (tt, f s).

(** C truth value of an [int]. *)
Definition nonzero (z : Z) : bool := negb (z =? 0)%Z.

(** [htons] on the little-endian Cortex-M33: the two bytes of a 16-bit
    value swapped. *)
Definition htons (p : Z) : Z :=
  Z.lor (Z.shiftl (Z.land p 255) 8) (Z.land (Z.shiftr p 8) 255).

(** [char a[n] = {lit}]: the bytes of the string literal followed by its
    terminating NUL, as far as they fit, and zero-initialised elements for
    the rest of the array. *)
Definition char_array_init (n : nat) (lit : list Byte.byte) : list Byte.byte :=
  take n (lit ++ [Byte.x00]) ++ replicate (n - length (lit ++ [Byte.x00])) Byte.x00.

Definition sizeof (a : list Byte.byte) : Z := Z.of_nat (length a).

Section Program.

Variable cfg : config.
Variable w : world.

(** *** External calls *)

Definition printk (fmt : string) (args : list printk_arg) : M unit :=
  modify (emit (Printk fmt args)).

(** A successful [socket] hands out a descriptor that is open from then
    on; a failing one leaves its error code in [errno]. *)
Definition socket (family : sa_family) (type : sock_type) (proto : ip_protocol) : M Z :=
  fun s =>
    let (r, e) := os_socket w in
    let s1 := emit (Socket family type proto r) s in
    if (r <? 0)%Z then (r, set_errno e s1)
    else (r, set_open_fds ({[r]} ∪ open_fds s1) s1).

Definition connect (fd : Z) (addr : sockaddr_in) : M Z :=
  fun s =>
    let (r, e) := os_connect w fd in
    let s1 := emit (Connect fd addr r) s in
    if (r <? 0)%Z then (r, set_errno e s1) else (r, s1).

Definition send (fd : Z) (buf : list Byte.byte) (len flags : Z) : M Z :=
  fun s =>
    let (r, e) := os_send w (n_send s) in
    let s1 := set_n_send (S (n_send s)) (emit (Send fd buf len flags r) s) in
    if (r <? 0)%Z then (r, set_errno e s1) else (r, s1).

(** [close] releases an open descriptor and returns 0; on a descriptor
    that is not open it changes nothing, returns -1 and sets [EBADF]. *)
Definition close (fd : Z) : M Z :=
  fun s =>
    if decide (fd ∈ open_fds s)
    then (0%Z, set_open_fds (open_fds s ∖ {[fd]}) (emit (Close fd 0) s))
    else ((-1)%Z, set_errno EBADF (emit (Close fd (-1)) s)).

(** [inet_pton(AF_INET, src, &server4->sin_addr)]: 1 and the parsed
    address stored, or 0 and the destination untouched. *)
Definition inet_pton (family : sa_family) (src : string) : M Z :=
  fun s =>
    match os_inet_pton w src with
    | Some a =>
        let h := host_addr s in
        (1%Z, set_host_addr {| sin_family := sin_family h; sin_port := sin_port h;
                               sin_addr := a |}
                (emit (InetPton family src 1) s))
    | None => (0%Z, emit (InetPton family src 0) s)
    end.

(** [k_sem_give(&lte_connected)]: the count goes up by one unless it is
    at its limit. *)
Definition k_sem_give : M unit :=
  modify (fun s =>
    emit SemGive (set_lte_connected (Nat.min (S (lte_connected s)) lte_connected_limit) s)).

Definition k_delayed_work_init : M unit :=
  modify (fun s => emit WorkInit (set_work_initialised true s)).

(** [k_delayed_work_submit(&server_transmission_work, delay)]: the one
    work item becomes pending with that delay. *)
Definition k_delayed_work_submit (delay : k_timeout) : M Z :=
  fun s => (0%Z, emit (WorkSubmit delay) (set_work_pending (Some delay) s)).

Definition lte_lc_psm_req (enable : bool) : M Z :=
  fun s => let r := modem_psm_req w enable in (r, emit (PsmReq enable r) s).

Definition lte_lc_edrx_req (enable : bool) : M Z :=
  fun s => let r := modem_edrx_req w enable in (r, emit (EdrxReq enable r) s).

Definition lte_lc_rai_req (enable : bool) : M Z :=
  fun s => let r := modem_rai_req w enable in (r, emit (RaiReq enable r) s).

(** The handler is recorded when the call is made; whether the modem
    then delivers any event is up to the inputs of the system. *)
Definition lte_lc_init_and_connect_async : M Z :=
  fun s =>
    let r := modem_init_and_connect_async w in
    (r, emit (InitAndConnectAsync r) (set_lte_evt_handler true s)).

(** *** main.c *)

Definition server_transmission_work_fn : M unit :=
  let buffer :=
    char_array_init (Z.to_nat (CONFIG_TCP_DATA_UPLOAD_SIZE_BYTES cfg)) [Byte.x00] in
  printk "Transmitting TCP/IP payload of %d bytes to the "
    [ArgInt (CONFIG_TCP_DATA_UPLOAD_SIZE_BYTES cfg + TCP_IP_HEADER_SIZE)] ;;;
  printk "IP address %s, port number %d\n"
    [ArgStr (CONFIG_TCP_SERVER_ADDRESS_STATIC cfg); ArgInt (CONFIG_TCP_SERVER_PORT cfg)] ;;;
  fd <- get client_fd ;;
  err <- send fd buffer (sizeof buffer) 0 ;;
  if (err <? 0)%Z then
    e <- get errno ;;
    printk "Failed to transmit TCP packet, %d\n" [ArgInt e] ;;;
    fd <- get client_fd ;;
    close fd ;;;
    ret tt
  else
    k_delayed_work_submit (K_SECONDS (CONFIG_TCP_DATA_UPLOAD_FREQUENCY_SECONDS cfg)) ;;;
    ret tt.

Definition work_init : M unit := k_delayed_work_init.

Definition lte_handler (evt : lte_lc_evt) : M unit :=
  match evt with
  | LTE_LC_EVT_NW_REG_STATUS nw_reg_status =>
      if bool_decide (nw_reg_status <> LTE_LC_NW_REG_REGISTERED_HOME)
         && bool_decide (nw_reg_status <> LTE_LC_NW_REG_REGISTERED_ROAMING)
      then ret tt
      else
        printk "Network registration status: %s\n"
          [ArgStr (if bool_decide (nw_reg_status = LTE_LC_NW_REG_REGISTERED_HOME)
                   then "Connected - home network" else "Connected - roaming\n")] ;;;
        k_sem_give
  | LTE_LC_EVT_PSM_UPDATE tau active_time =>
      printk "PSM parameter update: TAU: %d, Active time: %d\n"
        [ArgInt tau; ArgInt active_time]
  | LTE_LC_EVT_EDRX_UPDATE edrx ptw =>
      let (len, log_buf) := libc_snprintf w edrx ptw in
      if (0 <? len)%Z then printk "%s\n" [ArgStr log_buf] else ret tt
  | LTE_LC_EVT_RRC_UPDATE rrc_mode =>
      printk "RRC mode: %s\n"
        [ArgStr (if bool_decide (rrc_mode = LTE_LC_RRC_MODE_CONNECTED)
                 then "Connected" else "Idle\n")]
  | LTE_LC_EVT_CELL_UPDATE id tac =>
      printk "LTE cell changed: Cell ID: %d, Tracking area: %d\n"
        [ArgInt id; ArgInt tac]
  | LTE_LC_EVT_OTHER _ => ret tt
  end.

Definition configure_low_power : M Z :=
  err <- (if CONFIG_TCP_PSM_ENABLE cfg then
            err <- lte_lc_psm_req true ;;
            (if nonzero err then printk "lte_lc_psm_req, error: %d\n" [ArgInt err]
             else ret tt) ;;;
            ret err
          else
            err <- lte_lc_psm_req false ;;
            (if nonzero err then printk "lte_lc_psm_req, error: %d\n" [ArgInt err]
             else ret tt) ;;;
            ret err) ;;
  err <- (if CONFIG_TCP_EDRX_ENABLE cfg then
            err <- lte_lc_edrx_req true ;;
            (if nonzero err then printk "lte_lc_edrx_req, error: %d\n" [ArgInt err]
             else ret tt) ;;;
            ret err
          else
            err <- lte_lc_edrx_req false ;;
            (if nonzero err then printk "lte_lc_edrx_req, error: %d\n" [ArgInt err]
             else ret tt) ;;;
            ret err) ;;
  err <- (if CONFIG_TCP_RAI_ENABLE cfg then
            err <- lte_lc_rai_req true ;;
            (if nonzero err then printk "lte_lc_rai_req, error: %d\n" [ArgInt err]
             else ret tt) ;;;
            ret err
          else ret err) ;;
  ret err.

Definition modem_configure : M unit :=
  if CONFIG_LTE_AUTO_INIT_AND_CONNECT cfg then
    ret tt
  else
    err <- lte_lc_init_and_connect_async ;;
    if nonzero err then printk "Modem configuration, error: %d\n" [ArgInt err]
    else ret tt.

Definition client_disconnect : M unit :=
  fd <- get client_fd ;;
  close fd ;;;
  ret tt.

Definition client_init : M Z :=
  modify (fun s =>
    let h := host_addr s in
    set_host_addr {| sin_family := AF_INET; sin_port := sin_port h;
                     sin_addr := sin_addr h |} s) ;;;
  modify (fun s =>
    let h := host_addr s in
    set_host_addr {| sin_family := sin_family h;
                     sin_port := htons (CONFIG_TCP_SERVER_PORT cfg);
                     sin_addr := sin_addr h |} s) ;;;
  inet_pton AF_INET (CONFIG_TCP_SERVER_ADDRESS_STATIC cfg) ;;;
  ret 0%Z.

Definition client_connect : M Z :=
  fd <- socket AF_INET SOCK_STREAM IPPROTO_TCP ;;
  modify (set_client_fd fd) ;;;
  fd <- get client_fd ;;
  if (fd <? 0)%Z then
    e <- get errno ;;
    printk "Failed to create TCP socket: %d\n" [ArgInt e] ;;;
    ret 0%Z
  else
    addr <- get host_addr ;;
    err <- connect fd addr ;;
    if (err <? 0)%Z then
      e <- get errno ;;
      printk "Connect failed : %d\n" [ArgInt e] ;;;
      client_disconnect ;;;
      ret err
    else
      printk "Successfully connected to TCP server: %s on port %d\n"
        [ArgStr (CONFIG_TCP_SERVER_ADDRESS_STATIC cfg);
         ArgInt (CONFIG_TCP_SERVER_PORT cfg)] ;;;
      ret 0%Z.

(** [main] up to its only blocking call, [k_sem_take(&lte_connected,
    K_FOREVER)], which exists only under [CONFIG_LTE_LINK_CONTROL]. *)
Definition main_until_wait : M unit :=
  printk "TCP Client sample has started\n" [] ;;;
  work_init ;;;
  if CONFIG_LTE_LINK_CONTROL cfg then
    err <- configure_low_power ;;
    (if nonzero err then
       printk "Unable to set low power configuration, error: %d\n" [ArgInt err]
     else ret tt) ;;;
    modem_configure
  else ret tt.

(** The rest of [main], from [client_init] on. *)
Definition main_after_wait : M unit :=
  err <- client_init ;;
  if nonzero err then
    printk "Not able to initialize TCP server connection\n" []
  else
    err <- client_connect ;;
    if nonzero err then
      printk "Not able to connect to TCP server %s on port %d\n"
        [ArgStr (CONFIG_TCP_SERVER_ADDRESS_STATIC cfg);
         ArgInt (CONFIG_TCP_SERVER_PORT cfg)]
    else
      k_delayed_work_submit K_NO_WAIT ;;;
      ret tt.

(** *** The kernel around main.c *)

(** Where the main thread is: not started, blocked in [k_sem_take], or
    returned from [main].  Each of the two stretches of [main] is one move:
    the handler is registered by the last call of the first stretch and the
    work item is submitted by the last call of the second, so neither can
    run inside a stretch it depends on; a handler call that falls into the
    second stretch touches the semaphore and the log only. *)
Inductive main_pc := MainReady | MainBlocked | MainReturned.

Record system := { mem : state; pc : main_pc }.

(** What the kernel and the modem library do to the program: start
    [main], call the registered LTE handler with an event, or let the
    timeout of the pending work item expire. *)
Inductive input :=
  | Boot
  | LteEvent (evt : lte_lc_evt)
  | WorkTimeout.

(** [k_sem_take(&lte_connected, K_FOREVER)] returns once the count is
    positive, taking one; [main] then runs to its end. *)
Definition wake (sys : system) : system :=
  match pc sys with
  | MainBlocked =>
      match lte_connected (mem sys) with
      | O => sys
      | S n =>
          {| mem := exec main_after_wait
                      (emit (SemTake K_FOREVER) (set_lte_connected n (mem sys)));
             pc := MainReturned |}
      end
  | _ => sys
  end.

Definition step (sys : system) (i : input) : system :=
  match i with
  | Boot =>
      match pc sys with
      | MainReady =>
          let s1 := exec main_until_wait (mem sys) in
          if CONFIG_LTE_LINK_CONTROL cfg
          then wake {| mem := s1; pc := MainBlocked |}
          else {| mem := exec main_after_wait s1; pc := MainReturned |}
      | _ => sys
      end
  | LteEvent evt =>
      if lte_evt_handler (mem sys)
      then wake {| mem := exec (lte_handler evt) (mem sys); pc := pc sys |}
      else sys
  | WorkTimeout =>
      match work_pending (mem sys) with
      | Some _ =>
          {| mem := exec server_transmission_work_fn (set_work_pending None (mem sys));
             pc := pc sys |}
      | None => sys
      end
  end.

Definition run (sys : system) (ins : list input) : system := fold_left step ins sys.

Definition boot_system : system := {| mem := initial_state; pc := MainReady |}.

End Program.

(** * Properties *)

(** ** Reading traces *)

Definition is_send (e : event) : bool :=
  match e with Send _ _ _ _ _ => true | _ => false end.

Definition is_submit (e : event) : bool :=
  match e with WorkSubmit _ => true | _ => false end.

Definition is_close (e : event) : bool :=
  match e with Close _ _ => true | _ => false end.

Definition is_give (e : event) : bool :=
  match e with SemGive => true | _ => false end.

Definition is_printk (e : event) : bool :=
  match e with Printk _ _ => true | _ => false end.

(** The message of [main]'s branch for a failed [client_init]. *)
Definition is_init_failure (e : event) : bool :=
  match e with
  | Printk fmt _ => String.eqb fmt "Not able to initialize TCP server connection\n"
  | _ => false
  end.

(** Events that only report: log output and the semaphore signal. *)
Definition is_report (e : event) : bool := is_printk e || is_give e.

(** The sub-trace of the events selected by [p], in order. *)
Definition only (p : event -> bool) (t : list event) : list event := List.filter p t.

Lemma only_app p t1 t2 : only p (t1 ++ t2) = only p t1 ++ only p t2.
Proof. apply List.filter_app. Qed.

Lemma only_only (p q : event -> bool) (t : list event) :
  (forall e, p e = true -> q e = true) ->
  only p (only q t) = only p t.
Proof.
  intros Hpq. unfold only. induction t as [|e t IH]; [reflexivity|].
  cbn [List.filter].
  destruct (q e) eqn:Hq; cbn [List.filter].
  - destruct (p e); now rewrite IH.
  - destruct (p e) eqn:Hp; [|exact IH].
    rewrite (Hpq e Hp) in Hq. discriminate.
Qed.

(** The zero-filled payload. *)
Lemma char_array_init_nul (n : nat) :
  char_array_init n [Byte.x00] = replicate n Byte.x00.
Proof.
  unfold char_array_init.
  destruct n as [|[|n]]; simpl; try reflexivity.
  do 2 f_equal. now destruct n.
Qed.

Ltac unfold_prog :=
  unfold exec, result, main_until_wait, main_after_wait,
    server_transmission_work_fn, work_init, lte_handler,
    configure_low_power, modem_configure, client_connect, client_disconnect,
    client_init, printk, socket, connect, send, close, inet_pton, k_sem_give,
    k_delayed_work_init, k_delayed_work_submit, lte_lc_psm_req, lte_lc_edrx_req,
    lte_lc_rai_req, lte_lc_init_and_connect_async,
    bind, ret, get, modify, emit in *.

(** Two states with the same fields are the same state. *)
Lemma state_ext (s1 s2 : state) :
  client_fd s1 = client_fd s2 ->
  host_addr s1 = host_addr s2 ->
  errno s1 = errno s2 ->
  lte_connected s1 = lte_connected s2 ->
  work_initialised s1 = work_initialised s2 ->
  work_pending s1 = work_pending s2 ->
  lte_evt_handler s1 = lte_evt_handler s2 ->
  open_fds s1 = open_fds s2 ->
  n_send s1 = n_send s2 ->
  trace s1 = trace s2 ->
  s1 = s2.
Proof. destruct s1, s2; simpl; intros; subst; reflexivity. Qed.

Ltac state_eq :=
  lazymatch goal with
  | |- (_, _) = (_, _) => apply f_equal2; [reflexivity|]
  | _ => idtac
  end;
  apply state_ext;
  repeat (progress simpl || rewrite <- app_assoc || rewrite app_nil_r);
  try reflexivity.

Section WorkFn.

Variable cfg : config.
Variable w : world.

Definition payload : list Byte.byte :=
  replicate (Z.to_nat (CONFIG_TCP_DATA_UPLOAD_SIZE_BYTES cfg)) Byte.x00.

(** The two progress messages every firing starts with. *)
Definition announce : list event :=
  [ Printk "Transmitting TCP/IP payload of %d bytes to the "
      [ArgInt (CONFIG_TCP_DATA_UPLOAD_SIZE_BYTES cfg + TCP_IP_HEADER_SIZE)];
    Printk "IP address %s, port number %d\n"
      [ArgStr (CONFIG_TCP_SERVER_ADDRESS_STATIC cfg);
       ArgInt (CONFIG_TCP_SERVER_PORT cfg)] ].

Definition the_send (s : state) : event :=
  Send (client_fd s) payload (sizeof payload) 0 (fst (os_send w (n_send s))).

(** A firing whose [send] does not return a negative value. *)
Lemma work_fn_sent (s : state) :
  (0 <= fst (os_send w (n_send s)))%Z ->
  exec (server_transmission_work_fn cfg w) s =
    append_trace
      (announce ++
       [the_send s;
        WorkSubmit (K_SECONDS (CONFIG_TCP_DATA_UPLOAD_FREQUENCY_SECONDS cfg))])
      (set_work_pending
         (Some (K_SECONDS (CONFIG_TCP_DATA_UPLOAD_FREQUENCY_SECONDS cfg)))
         (set_n_send (S (n_send s)) s)).
Proof.
  intros Hr. unfold the_send, payload. unfold_prog.
  rewrite char_array_init_nul. simpl.
  destruct (os_send w (n_send s)) as [r e]; simpl in *.
  destruct (Z.ltb_spec r 0); [lia|]. simpl.
  destruct (Z.ltb_spec r 0); [lia|]. simpl.
  state_eq.
Qed.

(** A firing whose [send] returns a negative value. *)
Lemma work_fn_failed (s : state) :
  (fst (os_send w (n_send s)) < 0)%Z ->
  let s' := exec (server_transmission_work_fn cfg w) s in
  trace s' =
    trace s ++ announce ++
      [the_send s;
       Printk "Failed to transmit TCP packet, %d\n" [ArgInt (snd (os_send w (n_send s)))];
       Close (client_fd s) (if decide (client_fd s ∈ open_fds s) then 0 else -1)%Z]
  /\ work_pending s' = work_pending s
  /\ open_fds s' = open_fds s ∖ {[client_fd s]}
  /\ client_fd s' = client_fd s
  /\ n_send s' = S (n_send s)
  /\ lte_connected s' = lte_connected s
  /\ lte_evt_handler s' = lte_evt_handler s.
Proof.
  intros Hr. unfold the_send, payload. unfold_prog.
  rewrite char_array_init_nul. simpl.
  destruct (os_send w (n_send s)) as [r e]; simpl in *.
  destruct (Z.ltb_spec r 0); [|lia]. simpl.
  destruct (Z.ltb_spec r 0); [|lia]. simpl.
  destruct (decide (client_fd s ∈ open_fds s)) as [Hin|Hin]; simpl;
    rewrite <- ?app_assoc; simpl; repeat split; try reflexivity.
  symmetry. apply difference_disjoint_L. set_solver.
Qed.

End WorkFn.

(** ** The LTE event handler *)

(** The events that report a completed registration. *)
Definition is_registration (evt : lte_lc_evt) : bool :=
  match evt with
  | LTE_LC_EVT_NW_REG_STATUS LTE_LC_NW_REG_REGISTERED_HOME
  | LTE_LC_EVT_NW_REG_STATUS LTE_LC_NW_REG_REGISTERED_ROAMING => true
  | _ => false
  end.

Section Handler.

Variable w : world.

(** Delivering a list of events to the handler, one after the other. *)
Definition deliver (evs : list lte_lc_evt) (s : state) : state :=
  fold_left (fun s evt => exec (lte_handler w evt) s) evs s.

Lemma lte_handler_other (evt : lte_lc_evt) (s : state) :
  is_registration evt = false ->
  exists logs, exec (lte_handler w evt) s = append_trace logs s
               /\ forallb is_printk logs = true
               /\ forallb (fun e => negb (is_init_failure e)) logs = true.
Proof.
  intros Hreg.
  destruct evt as [st| | e p |m| |]; try destruct st; try discriminate Hreg;
    unfold_prog; simpl;
    try (destruct (libc_snprintf w e p) as [len buf]; destruct (0 <? len)%Z; simpl);
    try (eexists [_]; split; [reflexivity | split; reflexivity]);
    exists []; (split; [state_eq | split; reflexivity]).
Qed.

Lemma lte_handler_registration (evt : lte_lc_evt) (s : state) :
  is_registration evt = true ->
  exists msg,
    exec (lte_handler w evt) s =
      append_trace [Printk "Network registration status: %s\n" [ArgStr msg]; SemGive]
        (set_lte_connected (Nat.min (S (lte_connected s)) lte_connected_limit) s).
Proof.
  intros Hreg.
  destruct evt as [st| | | | |]; try destruct st; try discriminate Hreg;
    unfold_prog; simpl; eexists; state_eq.
Qed.

Lemma deliver_cons evt evs s :
  deliver (evt :: evs) s = deliver evs (exec (lte_handler w evt) s).
Proof. reflexivity. Qed.

Lemma deliver_gives (evs : list lte_lc_evt) (s : state) :
  length (only is_give (trace (deliver evs s))) =
    length (only is_give (trace s)) + length (List.filter is_registration evs).
Proof.
  revert s. induction evs as [|evt evs IH]; intros s.
  - simpl. lia.
  - rewrite deliver_cons, IH. simpl List.filter.
    destruct (is_registration evt) eqn:Hreg.
    + destruct (lte_handler_registration evt s Hreg) as [msg ->].
      simpl. rewrite only_app, length_app. simpl. lia.
    + destruct (lte_handler_other evt s Hreg) as (logs & -> & Hlogs & _).
      simpl. rewrite only_app, length_app.
      assert (only is_give logs = []) as ->; [|simpl; lia].
      clear -Hlogs. induction logs as [|e logs IH]; [reflexivity|].
      simpl in *. apply andb_prop in Hlogs as [He Hl].
      destruct e; try discriminate He. simpl. auto.
Qed.

Lemma deliver_count (evs : list lte_lc_evt) (s : state) :
  lte_connected s <= lte_connected_limit ->
  lte_connected (deliver evs s) =
    if existsb is_registration evs then lte_connected_limit else lte_connected s.
Proof.
  revert s. induction evs as [|evt evs IH]; intros s Hle; [reflexivity|].
  rewrite deliver_cons. simpl existsb.
  destruct (is_registration evt) eqn:Hreg.
  - destruct (lte_handler_registration evt s Hreg) as [msg ->].
    rewrite IH; simpl; unfold lte_connected_limit in *.
    + destruct (existsb is_registration evs); [reflexivity|]. lia.
    + lia.
  - destruct (lte_handler_other evt s Hreg) as (logs & -> & _ & _).
    rewrite IH; simpl; auto.
Qed.

End Handler.

(** ** The socket session *)

Section Session.

Variable cfg : config.
Variable w : world.

(** [host_addr] as [client_init] leaves it, from its earlier value [h]. *)
Definition server_sockaddr (h : sockaddr_in) : sockaddr_in :=
  {| sin_family := AF_INET;
     sin_port := htons (CONFIG_TCP_SERVER_PORT cfg);
     sin_addr := match os_inet_pton w (CONFIG_TCP_SERVER_ADDRESS_STATIC cfg) with
                 | Some a => a
                 | None => sin_addr h
                 end |}.

Definition inet_pton_event : event :=
  InetPton AF_INET (CONFIG_TCP_SERVER_ADDRESS_STATIC cfg)
    match os_inet_pton w (CONFIG_TCP_SERVER_ADDRESS_STATIC cfg) with
    | Some _ => 1%Z
    | None => 0%Z
    end.

Lemma client_init_exec (s : state) :
  client_init cfg w s =
    (0%Z, append_trace [inet_pton_event] (set_host_addr (server_sockaddr (host_addr s)) s)).
Proof.
  unfold server_sockaddr, inet_pton_event. unfold_prog. simpl.
  destruct (os_inet_pton w (CONFIG_TCP_SERVER_ADDRESS_STATIC cfg)); reflexivity.
Qed.

(** [socket] fails: the failure is logged and 0 is returned. *)
Lemma client_connect_no_socket (s : state) :
  (fst (os_socket w) < 0)%Z ->
  client_connect cfg w s =
    (0%Z,
     append_trace
       [Socket AF_INET SOCK_STREAM IPPROTO_TCP (fst (os_socket w));
        Printk "Failed to create TCP socket: %d\n" [ArgInt (snd (os_socket w))]]
       (set_client_fd (fst (os_socket w)) (set_errno (snd (os_socket w)) s))).
Proof.
  intros Hr. unfold_prog. simpl.
  destruct (os_socket w) as [r e]; simpl in *.
  destruct (Z.ltb_spec r 0); [|lia]. simpl.
  destruct (Z.ltb_spec r 0); [|lia]. simpl.
  state_eq.
Qed.

(** [socket] succeeds and [connect] fails: the descriptor is closed again
    and what [connect] returned is returned. *)
Lemma client_connect_refused (s : state) :
  let fd := fst (os_socket w) in
  (0 <= fd)%Z ->
  (fst (os_connect w fd) < 0)%Z ->
  client_connect cfg w s =
    (fst (os_connect w fd),
     append_trace
       [Socket AF_INET SOCK_STREAM IPPROTO_TCP fd;
        Connect fd (host_addr s) (fst (os_connect w fd));
        Printk "Connect failed : %d\n" [ArgInt (snd (os_connect w fd))];
        Close fd 0]
       (set_open_fds (({[fd]} ∪ open_fds s) ∖ {[fd]})
          (set_client_fd fd (set_errno (snd (os_connect w fd)) s)))).
Proof.
  intros fd Hfd Hc. subst fd. unfold_prog. simpl.
  destruct (os_socket w) as [fd e]; simpl in *.
  destruct (Z.ltb_spec fd 0); [lia|]. simpl.
  destruct (Z.ltb_spec fd 0); [lia|]. simpl.
  destruct (os_connect w fd) as [r ec]; simpl in *.
  destruct (Z.ltb_spec r 0); [|lia]. simpl.
  destruct (Z.ltb_spec r 0); [|lia]. simpl.
  destruct (decide (fd ∈ {[fd]} ∪ open_fds s)) as [_|Hn]; [|set_solver].
  simpl. state_eq.
Qed.

(** [socket] and [connect] succeed. *)
Lemma client_connect_connected (s : state) :
  let fd := fst (os_socket w) in
  (0 <= fd)%Z ->
  (0 <= fst (os_connect w fd))%Z ->
  client_connect cfg w s =
    (0%Z,
     append_trace
       [Socket AF_INET SOCK_STREAM IPPROTO_TCP fd;
        Connect fd (host_addr s) (fst (os_connect w fd));
        Printk "Successfully connected to TCP server: %s on port %d\n"
          [ArgStr (CONFIG_TCP_SERVER_ADDRESS_STATIC cfg);
           ArgInt (CONFIG_TCP_SERVER_PORT cfg)]]
       (set_open_fds ({[fd]} ∪ open_fds s) (set_client_fd fd s))).
Proof.
  intros fd Hfd Hc. subst fd. unfold_prog. simpl.
  destruct (os_socket w) as [fd e]; simpl in *.
  destruct (Z.ltb_spec fd 0); [lia|]. simpl.
  destruct (Z.ltb_spec fd 0); [lia|]. simpl.
  destruct (os_connect w fd) as [r ec]; simpl in *.
  destruct (Z.ltb_spec r 0); [lia|]. simpl.
  destruct (Z.ltb_spec r 0); [lia|]. simpl.
  state_eq.
Qed.

(** The rest of [main] after [client_init], whose result is always 0. *)
Definition connect_and_arm : M unit :=
  (err <- client_connect cfg w ;;
   if nonzero err then
     printk "Not able to connect to TCP server %s on port %d\n"
       [ArgStr (CONFIG_TCP_SERVER_ADDRESS_STATIC cfg);
        ArgInt (CONFIG_TCP_SERVER_PORT cfg)]
   else
     k_delayed_work_submit K_NO_WAIT ;;;
     ret tt)%prog.

Lemma main_after_wait_exec (s : state) :
  exec (main_after_wait cfg w) s =
    exec connect_and_arm (exec (client_init cfg w) s).
Proof.
  unfold exec at 1 3. unfold main_after_wait, bind.
  rewrite client_init_exec. reflexivity.
Qed.

End Session.

(** What [client_disconnect] does to a state: nothing but its [close]. *)
Lemma client_disconnect_exec (s : state) :
  client_disconnect s = (tt, snd (close (client_fd s) s)).
Proof.
  unfold client_disconnect, bind, get, ret.
  now destruct (close (client_fd s) s).
Qed.

Lemma close_released (fd : Z) (s : state) :
  fd ∉ open_fds s ->
  close fd s = ((-1)%Z, set_errno EBADF (append_trace [Close fd (-1)] s)).
Proof.
  intros Hn. unfold close, emit.
  destruct (decide (fd ∈ open_fds s)); [contradiction | reflexivity].
Qed.

Lemma close_releases (fd : Z) (s : state) :
  let s' := snd (close fd s) in
  client_fd s' = client_fd s /\ open_fds s' = open_fds s ∖ {[fd]}.
Proof.
  unfold close, emit.
  destruct (decide (fd ∈ open_fds s)) as [Hin|Hin]; cbn; [auto|].
  split; [reflexivity|]. symmetry. apply difference_disjoint_L.
  now apply disjoint_singleton_r.
Qed.

(** The value of [client_connect] carries the code [code] when it is that
    code or its negation, the two conventions of the socket layer. *)
Definition carries_os_error (ret code : Z) : Prop := ret = code \/ ret = (- code)%Z.


(** ** Start-up *)

Section Startup.

Variable cfg : config.
Variable w : world.

(** One power-saving request and the log line of its failure. *)
Definition request_events (req : event) (err : Z) (fmt : string) : list event :=
  req :: (if nonzero err then [Printk fmt [ArgInt err]] else []).

Definition low_power_events : list event :=
  let psm := CONFIG_TCP_PSM_ENABLE cfg in
  let edrx := CONFIG_TCP_EDRX_ENABLE cfg in
  request_events (PsmReq psm (modem_psm_req w psm)) (modem_psm_req w psm)
    "lte_lc_psm_req, error: %d\n"
  ++ request_events (EdrxReq edrx (modem_edrx_req w edrx)) (modem_edrx_req w edrx)
       "lte_lc_edrx_req, error: %d\n"
  ++ (if CONFIG_TCP_RAI_ENABLE cfg
      then request_events (RaiReq true (modem_rai_req w true)) (modem_rai_req w true)
             "lte_lc_rai_req, error: %d\n"
      else []).

Definition low_power_result : Z :=
  if CONFIG_TCP_RAI_ENABLE cfg then modem_rai_req w true
  else modem_edrx_req w (CONFIG_TCP_EDRX_ENABLE cfg).

Lemma configure_low_power_exec (s : state) :
  configure_low_power cfg w s = (low_power_result, append_trace low_power_events s).
Proof.
  unfold low_power_result, low_power_events, request_events. unfold_prog.
  destruct (CONFIG_TCP_PSM_ENABLE cfg), (CONFIG_TCP_EDRX_ENABLE cfg),
    (CONFIG_TCP_RAI_ENABLE cfg); simpl;
    repeat match goal with
           | |- context [nonzero ?z] => destruct (nonzero z); simpl
           end;
    state_eq.
Qed.

Definition modem_configure_events : list event :=
  if CONFIG_LTE_AUTO_INIT_AND_CONNECT cfg then []
  else request_events (InitAndConnectAsync (modem_init_and_connect_async w))
         (modem_init_and_connect_async w) "Modem configuration, error: %d\n".

Lemma modem_configure_exec (s : state) :
  exec (modem_configure cfg w) s =
    append_trace modem_configure_events
      (set_lte_evt_handler
         (if CONFIG_LTE_AUTO_INIT_AND_CONNECT cfg then lte_evt_handler s else true) s).
Proof.
  unfold modem_configure_events, request_events. unfold_prog.
  destruct (CONFIG_LTE_AUTO_INIT_AND_CONNECT cfg); simpl;
    try destruct (nonzero (modem_init_and_connect_async w)); simpl;
    state_eq.
Qed.

(** Everything [main] does before it waits for the registration. *)
Definition startup_events : list event :=
  [Printk "TCP Client sample has started\n" []; WorkInit]
  ++ (if CONFIG_LTE_LINK_CONTROL cfg then
        low_power_events
        ++ (if nonzero low_power_result
            then [Printk "Unable to set low power configuration, error: %d\n"
                    [ArgInt low_power_result]]
            else [])
        ++ modem_configure_events
      else []).

Lemma main_until_wait_exec (s : state) :
  exec (main_until_wait cfg w) s =
    append_trace startup_events
      (set_lte_evt_handler
         (if CONFIG_LTE_LINK_CONTROL cfg && negb (CONFIG_LTE_AUTO_INIT_AND_CONNECT cfg)
          then true else lte_evt_handler s)
         (set_work_initialised true s)).
Proof.
  unfold startup_events, exec, main_until_wait, bind, work_init, printk,
    k_delayed_work_init, modify, ret, emit.
  destruct (CONFIG_LTE_LINK_CONTROL cfg); simpl.
  - rewrite configure_low_power_exec.
    pose proof (modem_configure_exec) as Hm. unfold exec in Hm.
    destruct (nonzero low_power_result); simpl; rewrite Hm;
      destruct (CONFIG_LTE_AUTO_INIT_AND_CONNECT cfg); simpl;
      state_eq.
  - state_eq.
Qed.

End Startup.

Arguments low_power_events : simpl never.
Arguments modem_configure_events : simpl never.
Arguments startup_events : simpl never.

Definition is_power_request (e : event) : bool :=
  match e with
  | PsmReq _ _ | EdrxReq _ _ | RaiReq _ _ => true
  | _ => false
  end.

Lemma low_power_only_requests (cfg : config) (w : world) :
  forallb (fun e => is_power_request e || is_printk e) (low_power_events cfg w) = true.
Proof.
  unfold low_power_events, request_events.
  destruct (CONFIG_TCP_RAI_ENABLE cfg);
    repeat match goal with
           | |- context [nonzero ?z] => destruct (nonzero z)
           end; reflexivity.
Qed.


(** ** The system as a transition relation *)

Section Actions.

Variable cfg : config.
Variable w : world.

(** What [main] appends to the trace from [client_init] on, given the
    address [h] that was in [host_addr] before. *)
Definition session_events (h : sockaddr_in) : list event :=
  let addr := CONFIG_TCP_SERVER_ADDRESS_STATIC cfg in
  let port := CONFIG_TCP_SERVER_PORT cfg in
  let fd := fst (os_socket w) in
  inet_pton_event cfg w
  :: Socket AF_INET SOCK_STREAM IPPROTO_TCP fd
  :: (if (fd <? 0)%Z then
        [Printk "Failed to create TCP socket: %d\n" [ArgInt (snd (os_socket w))];
         WorkSubmit K_NO_WAIT]
      else
        Connect fd (server_sockaddr cfg w h) (fst (os_connect w fd))
        :: (if (fst (os_connect w fd) <? 0)%Z then
              [Printk "Connect failed : %d\n" [ArgInt (snd (os_connect w fd))];
               Close fd 0;
               Printk "Not able to connect to TCP server %s on port %d\n"
                 [ArgStr addr; ArgInt port]]
            else
              [Printk "Successfully connected to TCP server: %s on port %d\n"
                 [ArgStr addr; ArgInt port];
               WorkSubmit K_NO_WAIT])).

(** Whether [main] reaches its [k_delayed_work_submit]. *)
Definition main_arms : bool :=
  (fst (os_socket w) <? 0)%Z || negb (fst (os_connect w (fst (os_socket w))) <? 0)%Z.

Lemma main_after_wait_trace (s : state) :
  let s' := exec (main_after_wait cfg w) s in
  trace s' = trace s ++ session_events (host_addr s)
  /\ work_pending s' = (if main_arms then Some K_NO_WAIT else work_pending s)
  /\ n_send s' = n_send s
  /\ lte_connected s' = lte_connected s
  /\ lte_evt_handler s' = lte_evt_handler s
  /\ client_fd s' = fst (os_socket w).
Proof.
  intros s'. subst s'. rewrite main_after_wait_exec.
  unfold session_events, main_arms.
  replace (exec (client_init cfg w) s)
    with (append_trace [inet_pton_event cfg w]
            (set_host_addr (server_sockaddr cfg w (host_addr s)) s))
    by (unfold exec; now rewrite client_init_exec).
  remember (append_trace [inet_pton_event cfg w]
              (set_host_addr (server_sockaddr cfg w (host_addr s)) s)) as s1 eqn:Hs1.
  assert (trace s1 = trace s ++ [inet_pton_event cfg w]) as Ht by now subst s1.
  replace (server_sockaddr cfg w (host_addr s)) with (host_addr s1) by now subst s1.
  replace (work_pending s) with (work_pending s1) by now subst s1.
  replace (n_send s) with (n_send s1) by now subst s1.
  replace (lte_connected s) with (lte_connected s1) by now subst s1.
  replace (lte_evt_handler s) with (lte_evt_handler s1) by now subst s1.
  clear Hs1.
  unfold exec, connect_and_arm, bind.
  destruct (Z.ltb_spec (fst (os_socket w)) 0) as [Hs|Hs].
  - rewrite client_connect_no_socket by exact Hs. simpl.
    rewrite Ht, <- !app_assoc. repeat split.
  - destruct (Z.ltb_spec (fst (os_connect w (fst (os_socket w)))) 0) as [Hc|Hc].
    + rewrite client_connect_refused by assumption.
      assert (nonzero (fst (os_connect w (fst (os_socket w)))) = true) as ->.
      { unfold nonzero. destruct (Z.eqb_spec (fst (os_connect w (fst (os_socket w)))) 0);
          [lia | reflexivity]. }
      simpl. rewrite Ht, <- !app_assoc. repeat split.
    + rewrite client_connect_connected by assumption. simpl.
      rewrite Ht, <- !app_assoc. repeat split.
Qed.

(** What one firing of the work item appends to the trace. *)
Definition firing_events (s : state) : list event :=
  announce cfg ++
  the_send cfg w s
  :: (if (fst (os_send w (n_send s)) <? 0)%Z then
        [Printk "Failed to transmit TCP packet, %d\n"
           [ArgInt (snd (os_send w (n_send s)))];
         Close (client_fd s) (if decide (client_fd s ∈ open_fds s) then 0 else -1)%Z]
      else
        [WorkSubmit (K_SECONDS (CONFIG_TCP_DATA_UPLOAD_FREQUENCY_SECONDS cfg))]).

Lemma work_fn_trace (s : state) :
  let s' := exec (server_transmission_work_fn cfg w) s in
  trace s' = trace s ++ firing_events s
  /\ work_pending s' =
       (if (fst (os_send w (n_send s)) <? 0)%Z then work_pending s
        else Some (K_SECONDS (CONFIG_TCP_DATA_UPLOAD_FREQUENCY_SECONDS cfg)))
  /\ n_send s' = S (n_send s)
  /\ client_fd s' = client_fd s
  /\ lte_connected s' = lte_connected s
  /\ lte_evt_handler s' = lte_evt_handler s.
Proof.
  intros s'. subst s'. unfold firing_events.
  destruct (Z.ltb_spec (fst (os_send w (n_send s))) 0) as [Hr|Hr].
  - destruct (work_fn_failed cfg w s Hr) as (Ht & Hp & _ & Hfd & Hn & Hc & Hl).
    rewrite Ht, Hp, Hn, Hfd, Hc, Hl. repeat split; try now rewrite <- app_assoc.
  - rewrite (work_fn_sent cfg w s Hr). simpl.
    repeat split; try now rewrite <- app_assoc.
Qed.

(** The atomic moves of the system: [main] runs up to its wait, [main]
    is woken and runs to its end, [main] runs through without a wait
    (no link control), the LTE handler is called, the work item fires. *)
Inductive action : system -> system -> Prop :=
  | act_start (s : state) :
      CONFIG_LTE_LINK_CONTROL cfg = true ->
      action {| mem := s; pc := MainReady |}
             {| mem := exec (main_until_wait cfg w) s; pc := MainBlocked |}
  | act_resume (s : state) (n : nat) :
      lte_connected s = S n ->
      action {| mem := s; pc := MainBlocked |}
             {| mem := exec (main_after_wait cfg w)
                         (emit (SemTake K_FOREVER) (set_lte_connected n s));
                pc := MainReturned |}
  | act_main (s : state) :
      CONFIG_LTE_LINK_CONTROL cfg = false ->
      action {| mem := s; pc := MainReady |}
             {| mem := exec (main_after_wait cfg w) (exec (main_until_wait cfg w) s);
                pc := MainReturned |}
  | act_event (s : state) (p : main_pc) (evt : lte_lc_evt) :
      lte_evt_handler s = true ->
      action {| mem := s; pc := p |}
             {| mem := exec (lte_handler w evt) s; pc := p |}
  | act_fire (s : state) (p : main_pc) (d : k_timeout) :
      work_pending s = Some d ->
      action {| mem := s; pc := p |}
             {| mem := exec (server_transmission_work_fn cfg w)
                         (set_work_pending None s);
                pc := p |}.

Lemma wake_actions (sys : system) : rtc action sys (wake cfg w sys).
Proof.
  destruct sys as [s p]. unfold wake. simpl.
  destruct p; try apply rtc_refl.
  destruct (lte_connected s) eqn:Hc; [apply rtc_refl|].
  apply rtc_once. now apply act_resume.
Qed.

Lemma step_actions (sys : system) (i : input) : rtc action sys (step cfg w sys i).
Proof.
  destruct sys as [s p]. destruct i; simpl.
  - destruct p; try apply rtc_refl.
    destruct (CONFIG_LTE_LINK_CONTROL cfg) eqn:Hl.
    + eapply rtc_l; [now apply act_start | apply wake_actions].
    + apply rtc_once. now apply act_main.
  - destruct (lte_evt_handler s) eqn:Hh; [|apply rtc_refl].
    eapply rtc_l; [now apply act_event | apply wake_actions].
  - destruct (work_pending s) eqn:Hp; [|apply rtc_refl].
    apply rtc_once. eapply act_fire; eassumption.
Qed.

Lemma run_actions (ins : list input) (sys : system) :
  rtc action sys (run cfg w sys ins).
Proof.
  revert sys. induction ins as [|i ins IH]; intros sys; simpl.
  - apply rtc_refl.
  - etrans; [apply step_actions | apply IH].
Qed.

(** A property kept by every action holds along every run. *)
Lemma run_invariant (I : system -> Prop) :
  (forall a b, action a b -> I a -> I b) ->
  forall sys ins, I sys -> I (run cfg w sys ins).
Proof.
  intros Hstep sys ins H0.
  induction (run_actions ins sys) as [|a b c Hab _ IH]; [exact H0|].
  apply IH. eapply Hstep; eassumption.
Qed.

End Actions.

Arguments session_events : simpl never.
Arguments firing_events : simpl never.

(** ** The discipline of the periodic trigger *)

(** Reading a trace from the left with the flag "a firing is outstanding":
    a [WorkSubmit] is legal only while none is outstanding and sets the flag,
    a [Send] is legal only as the action of the outstanding firing and
    clears it.  [None] reports a violation, [Some b] the final flag. *)
Fixpoint trigger_state (armed : bool) (t : list event) : option bool :=
  match t with
  | [] => Some armed
  | WorkSubmit _ :: t' => if armed then None else trigger_state true t'
  | Send _ _ _ _ _ :: t' => if armed then trigger_state false t' else None
  | _ :: t' => trigger_state armed t'
  end.

Definition is_pending (s : state) : bool :=
  match work_pending s with Some _ => true | None => false end.

(** Events that neither arm the trigger nor are its action. *)
Definition is_quiet (e : event) : bool := negb (is_send e) && negb (is_submit e).

Lemma trigger_state_app (a : bool) (t1 t2 : list event) :
  trigger_state a (t1 ++ t2) =
    match trigger_state a t1 with
    | Some a' => trigger_state a' t2
    | None => None
    end.
Proof.
  revert a. induction t1 as [|e t1 IH]; intros a; [reflexivity|].
  destruct e; simpl; try apply IH; destruct a; try reflexivity; apply IH.
Qed.

Lemma trigger_state_quiet (a : bool) (t : list event) :
  forallb is_quiet t = true -> trigger_state a t = Some a.
Proof.
  induction t as [|e t IH]; [reflexivity|]. simpl.
  intros [He Ht]%andb_prop. destruct e; try discriminate He; simpl; auto.
Qed.

Lemma only_quiet (p : event -> bool) (t : list event) :
  (forall e, p e = true -> is_quiet e = false) ->
  forallb is_quiet t = true -> only p t = [].
Proof.
  intros Hp. induction t as [|e t IH]; [reflexivity|]. simpl.
  intros [He Ht]%andb_prop. destruct (p e) eqn:Hpe; [|auto].
  rewrite (Hp e Hpe) in He. discriminate.
Qed.

Lemma printk_quiet (t : list event) :
  forallb is_printk t = true -> forallb is_quiet t = true.
Proof.
  induction t as [|e t IH]; [reflexivity|]. simpl.
  intros [He Ht]%andb_prop. destruct e; try discriminate He. simpl. auto.
Qed.

Section Trigger.

Variable cfg : config.
Variable w : world.

Lemma startup_quiet : forallb is_quiet (startup_events cfg w) = true.
Proof.
  unfold startup_events, low_power_events, modem_configure_events, request_events.
  destruct (CONFIG_LTE_LINK_CONTROL cfg); [|reflexivity].
  destruct (CONFIG_TCP_RAI_ENABLE cfg), (CONFIG_LTE_AUTO_INIT_AND_CONNECT cfg);
    repeat match goal with
           | |- context [nonzero ?z] => destruct (nonzero z)
           end; reflexivity.
Qed.

Lemma session_trigger (h : sockaddr_in) :
  trigger_state false (session_events cfg w h) = Some (main_arms w).
Proof.
  unfold session_events, main_arms, inet_pton_event.
  destruct (fst (os_socket w) <? 0)%Z; [reflexivity|].
  destruct (fst (os_connect w (fst (os_socket w))) <? 0)%Z; reflexivity.
Qed.

Lemma firing_trigger (s : state) :
  trigger_state true (firing_events cfg w s) =
    Some (negb (fst (os_send w (n_send s)) <? 0)%Z).
Proof.
  unfold firing_events, announce, the_send.
  destruct (fst (os_send w (n_send s)) <? 0)%Z; reflexivity.
Qed.

(** The invariant: the trace obeys the discipline, its final flag is
    whether the work item is pending, and nothing is pending before
    [main] has returned. *)
Definition trigger_inv (sys : system) : Prop :=
  trigger_state false (trace (mem sys)) = Some (is_pending (mem sys))
  /\ (pc sys <> MainReturned -> work_pending (mem sys) = None).

Lemma trigger_inv_action (a b : system) :
  action cfg w a b -> trigger_inv a -> trigger_inv b.
Proof.
  unfold trigger_inv, is_pending.
  intros Hact [Ht Hp]. destruct Hact as [s Hl|s n Hc|s Hl|s p evt Hh|s p d Hd]; cbn in *.
  - rewrite main_until_wait_exec. cbn.
    rewrite trigger_state_app, Ht, trigger_state_quiet by apply startup_quiet.
    split; [reflexivity|]. intros _. now apply Hp.
  - rewrite Hp in Ht by discriminate.
    destruct (main_after_wait_trace cfg w
                (emit (SemTake K_FOREVER) (set_lte_connected n s)))
      as (Htr & Hpe & _).
    rewrite Htr, Hpe. cbn. rewrite Hp by discriminate.
    rewrite <- app_assoc, trigger_state_app, Ht. cbn.
    rewrite session_trigger. split; [|intros []; reflexivity].
    now destruct (main_arms w).
  - rewrite Hp in Ht by discriminate.
    destruct (main_after_wait_trace cfg w (exec (main_until_wait cfg w) s))
      as (Htr & Hpe & _).
    rewrite Htr, Hpe, main_until_wait_exec. cbn. rewrite Hp by discriminate.
    rewrite <- app_assoc, trigger_state_app, Ht.
    rewrite trigger_state_app, trigger_state_quiet by apply startup_quiet.
    rewrite session_trigger. split; [|intros []; reflexivity].
    now destruct (main_arms w).
  - destruct (is_registration evt) eqn:Hreg.
    + destruct (lte_handler_registration w evt s Hreg) as [msg ->]. cbn.
      rewrite trigger_state_app, Ht. cbn. auto.
    + destruct (lte_handler_other w evt s Hreg) as (logs & -> & Hlogs & _). cbn.
      rewrite trigger_state_app, Ht, trigger_state_quiet by now apply printk_quiet.
      auto.
  - rewrite Hd in Ht.
    destruct (work_fn_trace cfg w (set_work_pending None s)) as (Htr & Hpe & _).
    rewrite Htr, Hpe. cbn.
    rewrite trigger_state_app, Ht.
    change (firing_events cfg w (set_work_pending None s)) with (firing_events cfg w s).
    rewrite firing_trigger.
    split; [now destruct (fst (os_send w (n_send s)) <? 0)%Z|].
    intros Hne. rewrite Hp in Hd by exact Hne. discriminate.
Qed.

Lemma trigger_inv_run (ins : list input) :
  trigger_inv (run cfg w boot_system ins).
Proof.
  apply run_invariant with (I := trigger_inv).
  - apply trigger_inv_action.
  - split; [reflexivity|]. reflexivity.
Qed.

End Trigger.

(** ** After the trigger has stopped *)

Section Stopped.

Variable cfg : config.
Variable w : world.

Definition not_report (e : event) : bool := negb (is_report e).

(** [main] has returned and the work item is not pending. *)
Definition stopped (sys : system) : Prop :=
  pc sys = MainReturned /\ work_pending (mem sys) = None.

(** The part of a state that only calls into the socket layer and the
    work queue can change. *)
Definition footprint (s : state) : Z * gset Z * nat * list event :=
  (client_fd s, open_fds s, n_send s, only not_report (trace s)).

Lemma handler_footprint (evt : lte_lc_evt) (s : state) :
  let s' := exec (lte_handler w evt) s in
  footprint s' = footprint s /\ work_pending s' = work_pending s.
Proof.
  unfold footprint. destruct (is_registration evt) eqn:Hreg.
  - destruct (lte_handler_registration w evt s Hreg) as [msg ->]. cbn.
    rewrite only_app, app_nil_r. auto.
  - destruct (lte_handler_other w evt s Hreg) as (logs & -> & Hlogs & _). cbn.
    rewrite only_app.
    assert (only not_report logs = []) as ->; [|rewrite app_nil_r; auto].
    clear -Hlogs. induction logs as [|e logs IH]; [reflexivity|].
    cbn in *. apply andb_prop in Hlogs as [He Hl].
    destruct e; try discriminate He. cbn. auto.
Qed.

Lemma stopped_action (f : Z * gset Z * nat * list event) (a b : system) :
  action cfg w a b ->
  stopped a /\ footprint (mem a) = f ->
  stopped b /\ footprint (mem b) = f.
Proof.
  unfold stopped.
  intros Hact [[Hpc Hp] Hf].
  destruct Hact as [s Hl|s n Hc|s Hl|s p evt Hh|s p d Hd]; cbn in *;
    try discriminate Hpc; [|congruence].
  destruct (handler_footprint evt s) as [Hfp Hwp]. cbn in Hfp, Hwp.
  rewrite Hfp, Hwp. auto.
Qed.

Lemma stopped_run (sys : system) (ins : list input) :
  stopped sys ->
  stopped (run cfg w sys ins)
  /\ footprint (mem (run cfg w sys ins)) = footprint (mem sys).
Proof.
  intros Hs.
  apply run_invariant
    with (I := fun x => stopped x /\ footprint (mem x) = footprint (mem sys)).
  - apply stopped_action.
  - auto.
Qed.

End Stopped.

(** ** Runs of the system *)

Section Runs.

Variable cfg : config.
Variable w : world.

(** A trace without the message of a failed [client_init]. *)
Definition clean (t : list event) : Prop := only is_init_failure t = [].

Lemma clean_app (t1 t2 : list event) : clean t1 -> clean t2 -> clean (t1 ++ t2).
Proof. unfold clean. intros H1 H2. now rewrite only_app, H1, H2. Qed.

Lemma clean_forallb (t : list event) :
  forallb (fun e => negb (is_init_failure e)) t = true -> clean t.
Proof.
  unfold clean, only. induction t as [|e t IH]; [reflexivity|].
  cbn [forallb List.filter]. intros [He Ht]%andb_prop.
  destruct (is_init_failure e); [discriminate He | auto].
Qed.

Lemma startup_clean : clean (startup_events cfg w).
Proof.
  apply clean_forallb.
  unfold startup_events, low_power_events, modem_configure_events, request_events.
  destruct (CONFIG_LTE_LINK_CONTROL cfg); [|reflexivity].
  destruct (CONFIG_TCP_RAI_ENABLE cfg), (CONFIG_LTE_AUTO_INIT_AND_CONNECT cfg);
    repeat match goal with
           | |- context [nonzero ?z] => destruct (nonzero z)
           end; reflexivity.
Qed.

Lemma session_clean (h : sockaddr_in) : clean (session_events cfg w h).
Proof.
  apply clean_forallb. unfold session_events, inet_pton_event.
  destruct (fst (os_socket w) <? 0)%Z; [reflexivity|].
  destruct (fst (os_connect w (fst (os_socket w))) <? 0)%Z; reflexivity.
Qed.

Lemma firing_clean (s : state) : clean (firing_events cfg w s).
Proof.
  apply clean_forallb. unfold firing_events, announce, the_send.
  destruct (fst (os_send w (n_send s)) <? 0)%Z; reflexivity.
Qed.

(** Every action only appends to the trace, and never that message. *)
Lemma action_emits (a b : system) :
  action cfg w a b ->
  exists evs, trace (mem b) = trace (mem a) ++ evs /\ clean evs.
Proof.
  intros Hact. destruct Hact as [s Hl|s n Hc|s Hl|s p evt Hh|s p d Hd]; cbn [mem].
  - rewrite main_until_wait_exec. eexists. split; [reflexivity|]. apply startup_clean.
  - destruct (main_after_wait_trace cfg w
                (emit (SemTake K_FOREVER) (set_lte_connected n s))) as (-> & _).
    cbn [trace emit append_trace set_lte_connected]. rewrite <- app_assoc.
    eexists. split; [reflexivity|].
    apply clean_app; [reflexivity | apply session_clean].
  - destruct (main_after_wait_trace cfg w (exec (main_until_wait cfg w) s)) as (-> & _).
    rewrite main_until_wait_exec. cbn [trace append_trace]. rewrite <- app_assoc.
    eexists. split; [reflexivity|].
    apply clean_app; [apply startup_clean | apply session_clean].
  - destruct (is_registration evt) eqn:Hreg.
    + destruct (lte_handler_registration w evt s Hreg) as [msg ->].
      eexists. split; reflexivity.
    + destruct (lte_handler_other w evt s Hreg) as (logs & -> & _ & Hclean).
      exists logs. split; [reflexivity | now apply clean_forallb].
  - destruct (work_fn_trace cfg w (set_work_pending None s)) as (-> & _).
    eexists. split; [reflexivity | apply firing_clean].
Qed.

Lemma run_emits (sys : system) (ins : list input) :
  exists evs, trace (mem (run cfg w sys ins)) = trace (mem sys) ++ evs /\ clean evs.
Proof.
  apply run_invariant
    with (I := fun x => exists evs, trace (mem x) = trace (mem sys) ++ evs /\ clean evs).
  - intros a b Hact (evs & Ha & Hca).
    destruct (action_emits a b Hact) as (evs' & Hb & Hcb).
    exists (evs ++ evs'). rewrite Hb, Ha, <- app_assoc.
    split; [reflexivity | now apply clean_app].
  - exists []. split; [now rewrite app_nil_r | reflexivity].
Qed.

Lemma run_returned (sys : system) (ins : list input) :
  pc sys = MainReturned -> pc (run cfg w sys ins) = MainReturned.
Proof.
  apply run_invariant with (I := fun x => pc x = MainReturned).
  intros a b Hact. destruct Hact; cbn; congruence.
Qed.

(** A blocked [main] with the semaphore at 0 and the handler registered
    returns exactly when a registration event is delivered; when it does,
    it has gone through [socket]. *)
Lemma run_blocked (evs : list lte_lc_evt) (sys : system) :
  pc sys = MainBlocked ->
  lte_connected (mem sys) = 0 ->
  lte_evt_handler (mem sys) = true ->
  let sys' := run cfg w sys (map LteEvent evs) in
  if existsb is_registration evs
  then pc sys' = MainReturned
       /\ In (Socket AF_INET SOCK_STREAM IPPROTO_TCP (fst (os_socket w))) (trace (mem sys'))
  else pc sys' = MainBlocked /\ mem sys' = deliver w evs (mem sys).
Proof.
  revert sys. induction evs as [|evt evs IH]; intros [s p] Hpc Hc Hh; cbn in Hpc, Hc, Hh.
  - cbn. auto.
  - subst p. cbn [map existsb run fold_left step mem]. rewrite Hh.
    destruct (is_registration evt) eqn:Hreg; cbn [orb].
    + destruct (lte_handler_registration w evt s Hreg) as [msg Hexec].
      unfold wake. cbn [pc mem]. rewrite Hexec, Hc. cbn [lte_connected append_trace
        set_lte_connected Nat.min lte_connected_limit].
      match goal with
      | |- context [fold_left _ _ ?x] => set (woken := x)
      end.
      change (fold_left (step cfg w) (map LteEvent evs) woken)
        with (run cfg w woken (map LteEvent evs)).
      split; [now apply run_returned|].
      destruct (run_emits woken (map LteEvent evs)) as (more & -> & _).
      apply in_or_app. left. subst woken. cbn [mem].
      match goal with
      | |- context [exec (main_after_wait cfg w) ?x] =>
          destruct (main_after_wait_trace cfg w x) as (-> & _)
      end.
      apply in_or_app. right. unfold session_events. cbn. tauto.
    + destruct (lte_handler_other w evt s Hreg) as (logs & Hexec & _).
      unfold wake. cbn [pc mem]. rewrite Hexec. cbn [lte_connected append_trace].
      rewrite Hc.
      specialize (IH {| mem := append_trace logs s; pc := MainBlocked |}
                    eq_refl Hc Hh).
      cbn zeta in IH. unfold run in IH.
      destruct (existsb is_registration evs); [exact IH|].
      destruct IH as [IH1 IH2]. split; [exact IH1|].
      rewrite IH2. cbn [mem]. rewrite deliver_cons, Hexec. reflexivity.
Qed.

End Runs.

(** [connect] fails on a created socket: [main] reports it and returns
    without arming the work item. *)
Lemma connect_failure_never_arms (cfg : config) (w : world) (s : state) :
  (0 <= fst (os_socket w))%Z ->
  (fst (os_connect w (fst (os_socket w))) < 0)%Z ->
  let s' := exec (main_after_wait cfg w) s in
  only is_submit (session_events cfg w (host_addr s)) = []
  /\ trace s' = trace s ++ session_events cfg w (host_addr s)
  /\ work_pending s' = work_pending s.
Proof.
  intros Hfd Hrc s'. subst s'.
  destruct (main_after_wait_trace cfg w s) as (Htr & Hp & _).
  rewrite Htr, Hp. unfold main_arms, session_events, inet_pton_event.
  destruct (Z.ltb_spec (fst (os_socket w)) 0); [lia|].
  destruct (Z.ltb_spec (fst (os_connect w (fst (os_socket w)))) 0); [|lia].
  repeat split.
Qed.

(** ** Concrete configurations and environments *)

(** The end-to-end scenario of the specification: endpoint 10.0.0.5:4321,
    payload size 10, interval 60 s. *)
Definition scenario_config (link_control : bool) : config := {|
  CONFIG_TCP_DATA_UPLOAD_SIZE_BYTES := 10;
  CONFIG_TCP_DATA_UPLOAD_FREQUENCY_SECONDS := 60;
  CONFIG_TCP_SERVER_ADDRESS_STATIC := "10.0.0.5";
  CONFIG_TCP_SERVER_PORT := 4321;
  CONFIG_LTE_LINK_CONTROL := link_control;
  CONFIG_TCP_PSM_ENABLE := true;
  CONFIG_TCP_EDRX_ENABLE := true;
  CONFIG_TCP_RAI_ENABLE := false;
  CONFIG_LTE_AUTO_INIT_AND_CONNECT := false
|}.

(** An environment given by the answers of [socket], [connect], [send] and
    the three power-saving requests; the server address parses. *)
Definition scenario_world (sock conn : Z * Z) (snd_ : nat -> Z * Z) (psm edrx rai : Z)
  : world := {|
  os_socket := sock;
  os_connect := fun _ => conn;
  os_send := snd_;
  os_inet_pton := fun _ => Some 83886090%Z;
  libc_snprintf := fun _ _ => (42%Z, "eDRX parameter update");
  modem_psm_req := fun _ => psm;
  modem_edrx_req := fun _ => edrx;
  modem_rai_req := fun _ => rai;
  modem_init_and_connect_async := 0
|}.

(** Everything works; the third [send] fails with [ECONNRESET]. *)
Definition world_third_send_fails : world :=
  scenario_world (3, 0)%Z (0, 0)%Z
    (fun k => if (k <? 2)%nat then (10, 0)%Z else (-1, 104)%Z) 0 0 0.

(** Every [send] is cut short after four bytes. *)
Definition world_partial_send : world :=
  scenario_world (3, 0)%Z (0, 0)%Z (fun _ => (4, 0)%Z) 0 0 0.

(** [socket] fails with [ENFILE]. *)
Definition world_no_socket : world :=
  scenario_world (-1, 23)%Z (0, 0)%Z (fun _ => (-1, 9)%Z) 0 0 0.

(** [connect] fails with the error code [code]. *)
Definition world_connect_fails (code : Z) : world :=
  scenario_world (3, 0)%Z (-1, code)%Z (fun _ => (10, 0)%Z) 0 0 0.

(** The power-saving requests are all rejected. *)
Definition world_low_power_rejected : world :=
  scenario_world (3, 0)%Z (0, 0)%Z (fun _ => (10, 0)%Z) (-22) (-22) (-22).

(** The scenario of the specification, without link control: boot, three
    firings of which the third fails, and two more expiries of the timer. *)
Example scenario_trace :
  trace (mem (run (scenario_config false) world_third_send_fails boot_system
                [Boot; WorkTimeout; WorkTimeout; WorkTimeout; WorkTimeout; WorkTimeout]))
  = [ Printk "TCP Client sample has started\n" [];
      WorkInit;
      InetPton AF_INET "10.0.0.5" 1;
      Socket AF_INET SOCK_STREAM IPPROTO_TCP 3;
      Connect 3 {| sin_family := AF_INET; sin_port := 57616; sin_addr := 83886090 |} 0;
      Printk "Successfully connected to TCP server: %s on port %d\n"
        [ArgStr "10.0.0.5"; ArgInt 4321];
      WorkSubmit K_NO_WAIT ]
    ++ announce (scenario_config false)
    ++ [ Send 3 (replicate 10 Byte.x00) 10 0 10; WorkSubmit (K_SECONDS 60) ]
    ++ announce (scenario_config false)
    ++ [ Send 3 (replicate 10 Byte.x00) 10 0 10; WorkSubmit (K_SECONDS 60) ]
    ++ announce (scenario_config false)
    ++ [ Send 3 (replicate 10 Byte.x00) 10 0 (-1);
         Printk "Failed to transmit TCP packet, %d\n" [ArgInt 104];
         Close 3 0 ].
Proof. vm_compute. reflexivity. Qed.

(** ** What is sent *)

Section Payload.

Variable cfg : config.
Variable w : world.

(** A [send] of the zero-filled payload of the configured size, with no
    flags, on the descriptor that [socket] returned. *)
Definition zero_payload_send (e : event) : Prop :=
  match e with
  | Send fd buf len flags _ =>
      fd = fst (os_socket w)
      /\ buf = replicate (Z.to_nat (CONFIG_TCP_DATA_UPLOAD_SIZE_BYTES cfg)) Byte.x00
      /\ len = CONFIG_TCP_DATA_UPLOAD_SIZE_BYTES cfg
      /\ flags = 0%Z
  | _ => True
  end.

Lemma quiet_zero_payload (t : list event) :
  forallb is_quiet t = true -> Forall zero_payload_send t.
Proof.
  induction t as [|e t IH]; [constructor|]. cbn [forallb].
  intros [He Ht]%andb_prop. constructor; [|auto].
  destruct e; try discriminate He; exact I.
Qed.

Lemma session_zero_payload (h : sockaddr_in) :
  Forall zero_payload_send (session_events cfg w h).
Proof.
  unfold session_events, inet_pton_event.
  destruct (fst (os_socket w) <? 0)%Z;
    [|destruct (fst (os_connect w (fst (os_socket w))) <? 0)%Z];
    repeat constructor.
Qed.

Lemma firing_zero_payload (s : state) :
  (0 <= CONFIG_TCP_DATA_UPLOAD_SIZE_BYTES cfg)%Z ->
  client_fd s = fst (os_socket w) ->
  Forall zero_payload_send (firing_events cfg w s).
Proof.
  intros HP Hfd. unfold firing_events, announce, the_send, sizeof, payload.
  rewrite length_replicate, Z2Nat.id by exact HP.
  destruct (fst (os_send w (n_send s)) <? 0)%Z; repeat constructor; exact Hfd.
Qed.

(** Along a run every [send] is such a send; [client_fd] is what [socket]
    returned once [main] has returned, and nothing is pending before. *)
Definition payload_inv (sys : system) : Prop :=
  Forall zero_payload_send (trace (mem sys))
  /\ (pc sys = MainReturned -> client_fd (mem sys) = fst (os_socket w))
  /\ (pc sys <> MainReturned -> work_pending (mem sys) = None).

Lemma payload_inv_action (a b : system) :
  (0 <= CONFIG_TCP_DATA_UPLOAD_SIZE_BYTES cfg)%Z ->
  action cfg w a b -> payload_inv a -> payload_inv b.
Proof.
  unfold payload_inv.
  intros HP Hact (Hall & Hfd & Hp).
  destruct Hact as [s Hl|s n Hc|s Hl|s p evt Hh|s p d Hd]; cbn [mem pc] in *.
  - rewrite main_until_wait_exec. cbn [trace work_pending append_trace
      set_lte_evt_handler set_work_initialised].
    split; [|split; [discriminate | intros _; now apply Hp]].
    apply Forall_app. split; [exact Hall|].
    apply quiet_zero_payload, startup_quiet.
  - destruct (main_after_wait_trace cfg w
                (emit (SemTake K_FOREVER) (set_lte_connected n s)))
      as (-> & _ & _ & _ & _ & ->).
    split; [|split; [reflexivity | congruence]].
    apply Forall_app. split; [|apply session_zero_payload].
    cbn. apply Forall_app. split; [exact Hall | repeat constructor].
  - destruct (main_after_wait_trace cfg w (exec (main_until_wait cfg w) s))
      as (-> & _ & _ & _ & _ & ->).
    split; [|split; [reflexivity | congruence]].
    apply Forall_app. split; [|apply session_zero_payload].
    rewrite main_until_wait_exec. cbn. apply Forall_app. split; [exact Hall|].
    apply quiet_zero_payload, startup_quiet.
  - destruct (handler_footprint w evt s) as [Hfoot Hwp]. cbn zeta in Hfoot, Hwp.
    rewrite Hwp. split; [|split; [|exact Hp]].
    + destruct (is_registration evt) eqn:Hreg.
      * destruct (lte_handler_registration w evt s Hreg) as [msg ->]. cbn.
        apply Forall_app. split; [exact Hall | repeat constructor].
      * destruct (lte_handler_other w evt s Hreg) as (logs & -> & Hlogs & _). cbn.
        apply Forall_app. split; [exact Hall|].
        now apply quiet_zero_payload, printk_quiet.
    + intros Hret. unfold footprint in Hfoot.
      replace (client_fd (exec (lte_handler w evt) s)) with (client_fd s)
        by congruence.
      now apply Hfd.
  - assert (p = MainReturned) as ->.
    { destruct p; try reflexivity; rewrite Hp in Hd by discriminate; discriminate. }
    destruct (work_fn_trace cfg w (set_work_pending None s))
      as (-> & _ & _ & -> & _).
    split; [|split; [intros _; now apply Hfd | congruence]].
    apply Forall_app. split; [exact Hall|].
    apply (firing_zero_payload (set_work_pending None s) HP). now apply Hfd.
Qed.

Lemma payload_inv_run (ins : list input) :
  (0 <= CONFIG_TCP_DATA_UPLOAD_SIZE_BYTES cfg)%Z ->
  payload_inv (run cfg w boot_system ins).
Proof.
  intros HP. apply run_invariant with (I := payload_inv).
  - intros a b. now apply payload_inv_action.
  - split; [constructor|]. split; [discriminate | reflexivity].
Qed.

End Payload.

(** ** Armed only when connected *)

Section Connected.

Variable cfg : config.
Variable w : world.

(** [socket] and [connect] succeed: [main] arms the work item, and the
    connected descriptor is open and held in [client_fd]. *)
Lemma main_after_wait_connected (s : state) :
  (0 <= fst (os_socket w))%Z ->
  (0 <= fst (os_connect w (fst (os_socket w))))%Z ->
  let s' := exec (main_after_wait cfg w) s in
  work_pending s' = Some K_NO_WAIT
  /\ client_fd s' = fst (os_socket w)
  /\ client_fd s' ∈ open_fds s'.
Proof.
  intros Hfd Hrc s'. subst s'. rewrite main_after_wait_exec.
  unfold exec, connect_and_arm, bind.
  rewrite (client_connect_connected cfg w _ Hfd Hrc). cbn.
  repeat split. apply elem_of_union_l. now apply elem_of_singleton.
Qed.

(** Nothing is pending before [main] has returned, and while the work item
    is pending the descriptor in [client_fd] is open. *)
Definition connected_inv (sys : system) : Prop :=
  (pc sys <> MainReturned -> work_pending (mem sys) = None)
  /\ (work_pending (mem sys) <> None -> client_fd (mem sys) ∈ open_fds (mem sys)).

Lemma connected_after_main (s : state) :
  (0 <= fst (os_socket w))%Z ->
  work_pending s = None ->
  let s' := exec (main_after_wait cfg w) s in
  work_pending s' <> None -> client_fd s' ∈ open_fds s'.
Proof.
  intros Hfd Hnone s' Hpend.
  destruct (Z.ltb_spec (fst (os_connect w (fst (os_socket w)))) 0) as [Hrc|Hrc].
  - exfalso. apply Hpend.
    destruct (connect_failure_never_arms cfg w s Hfd Hrc) as (_ & _ & Hp).
    subst s'. now rewrite Hp.
  - now destruct (main_after_wait_connected s Hfd Hrc) as (_ & _ & Hin).
Qed.

Lemma connected_inv_action (a b : system) :
  (0 <= fst (os_socket w))%Z ->
  action cfg w a b -> connected_inv a -> connected_inv b.
Proof.
  unfold connected_inv.
  intros Hfd Hact [Hp Hopen].
  destruct Hact as [s Hl|s n Hc|s Hl|s p evt Hh|s p d Hd]; cbn [mem pc] in *.
  - rewrite main_until_wait_exec. cbn. rewrite Hp by discriminate. tauto.
  - split; [congruence|].
    apply connected_after_main; [exact Hfd|]. cbn. now apply Hp.
  - split; [congruence|].
    apply connected_after_main; [exact Hfd|].
    rewrite main_until_wait_exec. cbn. now apply Hp.
  - destruct (handler_footprint w evt s) as [Hfoot Hwp]. cbn zeta in Hfoot, Hwp.
    rewrite Hwp. split; [exact Hp|]. intros Hpend.
    unfold footprint in Hfoot.
    replace (client_fd (exec (lte_handler w evt) s)) with (client_fd s) by congruence.
    replace (open_fds (exec (lte_handler w evt) s)) with (open_fds s) by congruence.
    now apply Hopen.
  - assert (p = MainReturned) as ->.
    { destruct p; try reflexivity; rewrite Hp in Hd by discriminate; discriminate. }
    split; [congruence|].
    destruct (Z.ltb_spec (fst (os_send w (n_send s))) 0) as [Hr|Hr].
    + destruct (work_fn_failed cfg w (set_work_pending None s) Hr) as (_ & Hwp & _).
      cbn in Hwp. intros Hpend. now rewrite Hwp in Hpend.
    + rewrite (work_fn_sent cfg w (set_work_pending None s) Hr). cbn.
      intros _. apply Hopen. now rewrite Hd.
Qed.

(** Unless [socket] fails, the work item is pending only while the
    descriptor in [client_fd] is open. *)
Lemma armed_only_when_connected (ins : list input) :
  (0 <= fst (os_socket w))%Z ->
  let sys := run cfg w boot_system ins in
  work_pending (mem sys) <> None -> client_fd (mem sys) ∈ open_fds (mem sys).
Proof.
  intros Hfd sys.
  assert (connected_inv sys) as [_ Hopen]; [|exact Hopen].
  apply run_invariant with (I := connected_inv).
  - intros a b. now apply connected_inv_action.
  - split; [reflexivity|]. intros Hpend. now contradiction Hpend.
Qed.

End Connected.

(** * The claims of the specification *)

(** ** The controller and its session *)

(** C1 (which the code breaks): when [socket] fails, [client_connect]
    logs the failure but returns 0, so [main] takes the connection for
    established and submits the work item with [K_NO_WAIT], although no
    descriptor is open and [client_fd] is negative. *)
Theorem socket_failure_still_arms (cfg : config) (w : world) (s : state) :
  (fst (os_socket w) < 0)%Z ->
  let s' := exec (main_after_wait cfg w) s in
  result (client_connect cfg w) (exec (client_init cfg w) s) = 0%Z
  /\ trace s' =
       trace s
       ++ [inet_pton_event cfg w;
           Socket AF_INET SOCK_STREAM IPPROTO_TCP (fst (os_socket w));
           Printk "Failed to create TCP socket: %d\n" [ArgInt (snd (os_socket w))];
           WorkSubmit K_NO_WAIT]
  /\ work_pending s' = Some K_NO_WAIT
  /\ client_fd s' = fst (os_socket w)
  /\ open_fds s' = open_fds s.
Proof.
  intros Hs s'. subst s'. rewrite main_after_wait_exec.
  replace (exec (client_init cfg w) s)
    with (append_trace [inet_pton_event cfg w]
            (set_host_addr (server_sockaddr cfg w (host_addr s)) s))
    by (unfold exec; now rewrite client_init_exec).
  unfold result, exec, connect_and_arm, bind.
  rewrite (client_connect_no_socket cfg w _ Hs). cbn.
  repeat split. now rewrite <- !app_assoc.
Qed.

Lemma socket_failure_still_arms_witness :
  let cfg := scenario_config false in
  let sys := run cfg world_no_socket boot_system [Boot] in
  (fst (os_socket world_no_socket) < 0)%Z
  /\ pc sys = MainReturned
  /\ work_pending (mem sys) = Some K_NO_WAIT
  /\ open_fds (mem sys) = ∅.
Proof.
  intros cfg sys.
  assert (fst (os_socket world_no_socket) < 0)%Z as Hs by reflexivity.
  destruct (socket_failure_still_arms cfg world_no_socket
              (exec (main_until_wait cfg world_no_socket) initial_state) Hs)
    as (_ & _ & Hp & _ & Hopen).
  split; [exact Hs|]. split; [reflexivity|]. split; [exact Hp | exact Hopen].
Defined.

(** The run behind C1: no socket, and still a firing, whose [send] goes to
    descriptor -1. *)
Example no_socket_trace :
  trace (mem (run (scenario_config false) world_no_socket boot_system [Boot; WorkTimeout]))
  = [ Printk "TCP Client sample has started\n" [];
      WorkInit;
      InetPton AF_INET "10.0.0.5" 1;
      Socket AF_INET SOCK_STREAM IPPROTO_TCP (-1);
      Printk "Failed to create TCP socket: %d\n" [ArgInt 23];
      WorkSubmit K_NO_WAIT ]
    ++ announce (scenario_config false)
    ++ [ Send (-1) (replicate 10 Byte.x00) 10 0 (-1);
         Printk "Failed to transmit TCP packet, %d\n" [ArgInt 9];
         Close (-1) (-1) ].
Proof. vm_compute. reflexivity. Qed.

(** C2, as stated, fails: a refused connection and a timed-out one give
    the same return value, -1, which carries neither error code. *)
Lemma client_connect_drops_error_code :
  let cfg := scenario_config false in
  let refused := world_connect_fails 111 in
  let timed_out := world_connect_fails 116 in
  os_connect refused 3 = (-1, 111)%Z
  /\ result (client_connect cfg refused) initial_state = (-1)%Z
  /\ errno (exec (client_connect cfg refused) initial_state) = 111%Z
  /\ ~ carries_os_error (result (client_connect cfg refused) initial_state) 111
  /\ result (client_connect cfg timed_out) initial_state = (-1)%Z
  /\ errno (exec (client_connect cfg timed_out) initial_state) = 116%Z.
Proof.
  cbv zeta. repeat split; try (vm_compute; reflexivity).
  intros [H|H]; vm_compute in H; discriminate H.
Qed.

(** C2, amended: once a socket was created, [client_connect] returns 0
    exactly when the [connect] call did not fail, and then the connected
    descriptor is open and held in [client_fd]; when [connect] fails, its
    error code is left in [errno] and logged, the descriptor is closed
    again, and the value returned is the negative value that [connect]
    returned. *)
Theorem client_connect_result (cfg : config) (w : world) (s : state) :
  let fd := fst (os_socket w) in
  let rc := fst (os_connect w fd) in
  let ret := result (client_connect cfg w) s in
  let s' := exec (client_connect cfg w) s in
  (0 <= fd)%Z ->
  (ret = 0%Z <-> (0 <= rc)%Z)
  /\ ((0 <= rc)%Z -> client_fd s' = fd /\ fd ∈ open_fds s')
  /\ ((rc < 0)%Z ->
      ret = rc
      /\ errno s' = snd (os_connect w fd)
      /\ In (Printk "Connect failed : %d\n" [ArgInt (snd (os_connect w fd))]) (trace s')
      /\ In (Close fd 0) (trace s')
      /\ (fd ∉ open_fds s')).
Proof.
  intros fd rc ret s' Hfd. subst ret s'. unfold result, exec.
  destruct (Z.ltb_spec rc 0) as [Hrc|Hrc].
  - rewrite (client_connect_refused cfg w s Hfd Hrc). fold fd rc. cbn.
    split; [lia|]. split; [lia|]. intros _.
    split; [reflexivity|]. split; [reflexivity|].
    split; [apply in_or_app; right; cbn; tauto|].
    split; [apply in_or_app; right; cbn; tauto|].
    intros [_ Hn]%elem_of_difference. apply Hn. now apply elem_of_singleton.
  - rewrite (client_connect_connected cfg w s Hfd Hrc). fold fd rc. cbn.
    split; [tauto|]. split; [|lia]. intros _.
    split; [reflexivity|]. apply elem_of_union_l. now apply elem_of_singleton.
Qed.

Lemma client_connect_result_witness :
  let cfg := scenario_config false in
  let w := world_connect_fails 111 in
  (0 <= fst (os_socket w))%Z
  /\ (fst (os_connect w (fst (os_socket w))) < 0)%Z
  /\ result (client_connect cfg w) initial_state = fst (os_connect w (fst (os_socket w)))
  /\ errno (exec (client_connect cfg w) initial_state) = 111%Z.
Proof.
  intros cfg w.
  assert (0 <= fst (os_socket w))%Z as Hfd by discriminate.
  assert (fst (os_connect w (fst (os_socket w))) < 0)%Z as Hrc by reflexivity.
  destruct (client_connect_result cfg w initial_state Hfd) as (_ & _ & Hfail).
  destruct (Hfail Hrc) as (Hret & Herr & _).
  split; [exact Hfd|]. split; [exact Hrc|]. split; [exact Hret | exact Herr].
Defined.

(** ** The periodic transmission *)

(** C3: when the work item is due in a state reached from boot and the
    [send] of that firing returns a negative value, the firing logs the
    failure, closes the descriptor in [client_fd] as its last call and arms
    nothing; from then on, whatever happens, the work item is never pending
    again and nothing but log output and semaphore signals is added to the
    trace: no further [send], no further [k_delayed_work_submit]. *)
Theorem send_failure_stops_trigger (cfg : config) (w : world) (ins more : list input) :
  let sys := run cfg w boot_system ins in
  let sys1 := step cfg w sys WorkTimeout in
  let sys2 := run cfg w sys1 more in
  is_pending (mem sys) = true ->
  (fst (os_send w (n_send (mem sys))) < 0)%Z ->
  (exists c : Z,
     trace (mem sys1) =
       trace (mem sys) ++ announce cfg
       ++ [the_send cfg w (mem sys);
           Printk "Failed to transmit TCP packet, %d\n"
             [ArgInt (snd (os_send w (n_send (mem sys))))];
           Close (client_fd (mem sys)) c])
  /\ (client_fd (mem sys) ∉ open_fds (mem sys1))
  /\ work_pending (mem sys2) = None
  /\ only is_submit (trace (mem sys2)) = only is_submit (trace (mem sys))
  /\ only is_send (trace (mem sys2)) = only is_send (trace (mem sys1))
  /\ only not_report (trace (mem sys2)) = only not_report (trace (mem sys1)).
Proof.
  intros sys sys1 sys2 Hpend Hr.
  destruct (trigger_inv_run cfg w ins) as [_ Hpc]. fold sys in Hpc.
  unfold is_pending in Hpend.
  destruct (work_pending (mem sys)) as [d|] eqn:Hd; [|discriminate].
  assert (pc sys = MainReturned) as Hret.
  { destruct (pc sys); try reflexivity; discriminate Hpc; discriminate. }
  assert (sys1 = {| mem := exec (server_transmission_work_fn cfg w)
                             (set_work_pending None (mem sys));
                    pc := pc sys |}) as Hsys1.
  { subst sys1. unfold step. now rewrite Hd. }
  destruct (work_fn_failed cfg w (set_work_pending None (mem sys)) Hr)
    as (Htr & Hp & Hopen & _).
  cbn in Htr, Hp, Hopen.
  assert (stopped sys1) as Hstop.
  { rewrite Hsys1. split; [exact Hret | exact Hp]. }
  destruct (stopped_run cfg w sys1 more Hstop) as [[_ Hp2] Hfoot].
  fold sys2 in Hp2, Hfoot.
  assert (only not_report (trace (mem sys2)) = only not_report (trace (mem sys1)))
    as Hquiet by (unfold footprint in Hfoot; congruence).
  assert (trace (mem sys1) =
            trace (mem sys) ++ announce cfg
            ++ [the_send cfg w (mem sys);
                Printk "Failed to transmit TCP packet, %d\n"
                  [ArgInt (snd (os_send w (n_send (mem sys))))];
                Close (client_fd (mem sys))
                  (if decide (client_fd (mem sys) ∈ open_fds (mem sys)) then 0 else -1)%Z])
    as Htr1 by (rewrite Hsys1; exact Htr).
  assert (forall p, (forall e, p e = true -> not_report e = true) ->
                    only p (trace (mem sys2)) = only p (trace (mem sys1))) as Hsame.
  { intros p Hp'. rewrite <- (only_only p not_report (trace (mem sys2))) by exact Hp'.
    rewrite Hquiet. now apply only_only. }
  split; [eexists; exact Htr1|].
  split.
  { rewrite Hsys1. cbn [mem]. rewrite Hopen.
    intros [_ Hn]%elem_of_difference. apply Hn. now apply elem_of_singleton. }
  split; [exact Hp2|].
  split.
  - rewrite Hsame by (intros []; cbn; congruence).
    rewrite Htr1, !only_app. cbn. now rewrite app_nil_r.
  - split; [|exact Hquiet].
    apply Hsame. intros []; cbn; congruence.
Qed.

Lemma send_failure_stops_trigger_witness :
  let cfg := scenario_config false in
  let w := world_third_send_fails in
  let sys := run cfg w boot_system [Boot; WorkTimeout; WorkTimeout] in
  let sys1 := step cfg w sys WorkTimeout in
  let sys2 := run cfg w sys1 [WorkTimeout; LteEvent (LTE_LC_EVT_CELL_UPDATE 7 9); WorkTimeout] in
  is_pending (mem sys) = true
  /\ (fst (os_send w (n_send (mem sys))) < 0)%Z
  /\ work_pending (mem sys2) = None
  /\ only is_send (trace (mem sys2)) = only is_send (trace (mem sys1)).
Proof.
  intros cfg w sys sys1 sys2.
  assert (is_pending (mem sys) = true) as Hpend by (vm_compute; reflexivity).
  assert (fst (os_send w (n_send (mem sys))) < 0)%Z as Hr by (vm_compute; reflexivity).
  destruct (send_failure_stops_trigger cfg w [Boot; WorkTimeout; WorkTimeout]
              [WorkTimeout; LteEvent (LTE_LC_EVT_CELL_UPDATE 7 9); WorkTimeout]
              Hpend Hr) as (_ & _ & Hp & _ & Hs & _).
  split; [exact Hpend|]. split; [exact Hr|]. split; [exact Hp | exact Hs].
Defined.

(** C4: for every configured payload size P > 0, a firing of the
    transmission work calls [send] exactly once, on the descriptor held in
    [client_fd], with length P, flags 0 and a buffer of exactly P bytes,
    each of them zero; and in every run from boot every [send] is such a
    call, on the descriptor that [socket] returned. *)
Theorem work_fn_sends_zero_payload
    (cfg : config) (w : world) (s : state) (ins : list input) :
  (0 < CONFIG_TCP_DATA_UPLOAD_SIZE_BYTES cfg)%Z ->
  (exists (buf : list Byte.byte) (r : Z) (before after : list event),
     trace (exec (server_transmission_work_fn cfg w) s) =
       trace s ++ before
       ++ Send (client_fd s) buf (CONFIG_TCP_DATA_UPLOAD_SIZE_BYTES cfg) 0 r :: after
     /\ only is_send before = []
     /\ only is_send after = []
     /\ Z.of_nat (length buf) = CONFIG_TCP_DATA_UPLOAD_SIZE_BYTES cfg
     /\ Forall (fun b => b = Byte.x00) buf)
  /\ Forall (zero_payload_send cfg w) (trace (mem (run cfg w boot_system ins))).
Proof.
  intros HP. split; [|apply payload_inv_run; lia].
  destruct (work_fn_trace cfg w s) as (Htr & _).
  exists (payload cfg), (fst (os_send w (n_send s))), (announce cfg).
  eexists. rewrite Htr. unfold firing_events, the_send, sizeof, payload.
  rewrite length_replicate, Z2Nat.id by lia.
  split; [reflexivity|]. split; [reflexivity|].
  split; [now destruct (fst (os_send w (n_send s)) <? 0)%Z|].
  split; [reflexivity|].
  now apply Forall_replicate.
Qed.

Lemma work_fn_sends_zero_payload_witness :
  let cfg := scenario_config false in
  let w := world_third_send_fails in
  let ins := [Boot; WorkTimeout; WorkTimeout; WorkTimeout] in
  (0 < CONFIG_TCP_DATA_UPLOAD_SIZE_BYTES cfg)%Z
  /\ Forall (zero_payload_send cfg w) (trace (mem (run cfg w boot_system ins)))
  /\ length (only is_send (trace (mem (run cfg w boot_system ins)))) = 3.
Proof.
  intros cfg w ins.
  assert (0 < CONFIG_TCP_DATA_UPLOAD_SIZE_BYTES cfg)%Z as HP by reflexivity.
  destruct (work_fn_sends_zero_payload cfg w initial_state ins HP) as [_ Hall].
  split; [exact HP|]. split; [exact Hall | reflexivity].
Defined.

(** C5: the periodic trigger never has two outstanding firings.  Along
    every run from boot the trace obeys the trigger discipline (no
    [k_delayed_work_submit] while a firing is outstanding, a [send] only as
    the action of the outstanding firing) and ends with a firing outstanding
    exactly when the work item is pending; within one firing nothing is
    armed before [send] has returned, and afterwards the work item is
    re-armed with the configured interval exactly when [send] returned a
    non-negative value. *)
Theorem trigger_never_overlaps (cfg : config) (w : world) (ins : list input) (s : state) :
  trigger_state false (trace (mem (run cfg w boot_system ins))) =
    Some (is_pending (mem (run cfg w boot_system ins)))
  /\ let r := fst (os_send w (n_send s)) in
     let s' := exec (server_transmission_work_fn cfg w) s in
     let rearm := K_SECONDS (CONFIG_TCP_DATA_UPLOAD_FREQUENCY_SECONDS cfg) in
     exists before after : list event,
       trace s' =
         trace s ++ before
         ++ Send (client_fd s) (payload cfg) (sizeof (payload cfg)) 0 r :: after
       /\ only is_submit before = []
       /\ only is_submit after = (if (r <? 0)%Z then [] else [WorkSubmit rearm])
       /\ work_pending s' = (if (r <? 0)%Z then work_pending s else Some rearm).
Proof.
  split; [apply trigger_inv_run|].
  intros r s' rearm. subst r s' rearm.
  destruct (work_fn_trace cfg w s) as (Htr & Hp & _).
  exists (announce cfg). eexists. rewrite Htr, Hp.
  unfold firing_events, the_send.
  split; [reflexivity|]. split; [reflexivity|].
  now destruct (fst (os_send w (n_send s)) <? 0)%Z.
Qed.

(** ** The link monitor and the start-up *)

(** C6: for every sequence of LTE events delivered to the handler, the
    semaphore is given once for each registration-status event whose status
    is registered-home or registered-roaming and never otherwise; such an
    event logs one line and gives the semaphore, every other event changes
    nothing but the log; starting from an empty semaphore the wait
    condition holds afterwards exactly when such an event was delivered,
    and a [main] blocked in [k_sem_take] returns from it exactly then. *)
Theorem semaphore_given_on_registration_only
    (cfg : config) (w : world) (evs : list lte_lc_evt) (s : state) (sys : system) :
  length (only is_give (trace (deliver w evs s))) =
    length (only is_give (trace s)) + length (List.filter is_registration evs)
  /\ (forall evt s0, is_registration evt = true ->
        exists msg,
          exec (lte_handler w evt) s0 =
            append_trace [Printk "Network registration status: %s\n" [ArgStr msg]; SemGive]
              (set_lte_connected (Nat.min (S (lte_connected s0)) lte_connected_limit) s0))
  /\ (forall evt s0, is_registration evt = false ->
        exists logs,
          exec (lte_handler w evt) s0 = append_trace logs s0
          /\ forallb is_printk logs = true)
  /\ (lte_connected s = 0 ->
        (0 < lte_connected (deliver w evs s) <-> existsb is_registration evs = true))
  /\ (pc sys = MainBlocked -> lte_connected (mem sys) = 0 ->
      lte_evt_handler (mem sys) = true ->
        (pc (run cfg w sys (map LteEvent evs)) = MainReturned
         <-> existsb is_registration evs = true)).
Proof.
  split; [apply deliver_gives|].
  split; [intros evt s0; apply lte_handler_registration|].
  split.
  { intros evt s0 Hreg.
    destruct (lte_handler_other w evt s0 Hreg) as (logs & Hexec & Hlogs & _).
    now exists logs. }
  split.
  - intros Hc. rewrite deliver_count by (rewrite Hc; unfold lte_connected_limit; lia).
    rewrite Hc. unfold lte_connected_limit.
    destruct (existsb is_registration evs); split; (lia || congruence || auto).
  - intros Hpc Hc Hh. pose proof (run_blocked cfg w evs sys Hpc Hc Hh) as Hrun.
    cbn zeta in Hrun.
    destruct (existsb is_registration evs).
    + destruct Hrun as [-> _]. tauto.
    + destruct Hrun as [-> _]. split; discriminate.
Qed.

Lemma semaphore_given_on_registration_only_witness :
  let cfg := scenario_config true in
  let w := world_third_send_fails in
  let sys := step cfg w boot_system Boot in
  let quiet := [LTE_LC_EVT_NW_REG_STATUS LTE_LC_NW_REG_SEARCHING; LTE_LC_EVT_PSM_UPDATE 3600 60;
                LTE_LC_EVT_EDRX_UPDATE 0%Z 0%Z; LTE_LC_EVT_RRC_UPDATE LTE_LC_RRC_MODE_CONNECTED;
                LTE_LC_EVT_CELL_UPDATE 7 9; LTE_LC_EVT_OTHER 99] in
  pc sys = MainBlocked
  /\ pc (run cfg w sys (map LteEvent quiet)) <> MainReturned
  /\ pc (run cfg w sys
           (map LteEvent (quiet ++ [LTE_LC_EVT_NW_REG_STATUS LTE_LC_NW_REG_REGISTERED_ROAMING])))
     = MainReturned.
Proof.
  intros cfg w sys quiet.
  assert (pc sys = MainBlocked) as Hpc by reflexivity.
  assert (lte_connected (mem sys) = 0) as Hc by reflexivity.
  assert (lte_evt_handler (mem sys) = true) as Hh by reflexivity.
  split; [exact Hpc|]. split.
  - destruct (semaphore_given_on_registration_only cfg w quiet initial_state sys)
      as (_ & _ & _ & _ & Hwake).
    intros Hret. apply (Hwake Hpc Hc Hh) in Hret. discriminate Hret.
  - destruct (semaphore_given_on_registration_only cfg w
                (quiet ++ [LTE_LC_EVT_NW_REG_STATUS LTE_LC_NW_REG_REGISTERED_ROAMING])
                initial_state sys) as (_ & _ & _ & _ & Hwake).
    apply (Hwake Hpc Hc Hh). reflexivity.
Defined.

(** C7: with link control enabled and whatever the PSM, eDRX and RAI
    requests answer, [configure_low_power] does nothing but issue the
    requests and log the failing ones; [main] logs a non-zero result and
    goes on to [modem_configure] and to the wait for the registration, where
    it is blocked after boot; unless the modem is configured automatically
    it has called [lte_lc_init_and_connect_async], and once a registration
    event is delivered it returns from the wait and attempts the
    connection. *)
Theorem low_power_failures_not_fatal (cfg : config) (w : world) (evs : list lte_lc_evt) :
  CONFIG_LTE_LINK_CONTROL cfg = true ->
  let sys1 := step cfg w boot_system Boot in
  (forall s, exists err,
      configure_low_power cfg w s = (err, append_trace (low_power_events cfg w) s))
  /\ forallb (fun e => is_power_request e || is_printk e) (low_power_events cfg w) = true
  /\ pc sys1 = MainBlocked
  /\ (exists logs,
        trace (mem sys1) =
          [Printk "TCP Client sample has started\n" []; WorkInit]
          ++ low_power_events cfg w ++ logs ++ modem_configure_events cfg w
        /\ forallb is_printk logs = true)
  /\ (CONFIG_LTE_AUTO_INIT_AND_CONNECT cfg = false ->
      In (InitAndConnectAsync (modem_init_and_connect_async w)) (trace (mem sys1))
      /\ (existsb is_registration evs = true ->
          let sys2 := run cfg w sys1 (map LteEvent evs) in
          pc sys2 = MainReturned
          /\ In (Socket AF_INET SOCK_STREAM IPPROTO_TCP (fst (os_socket w)))
               (trace (mem sys2)))).
Proof.
  intros Hlink sys1.
  assert (sys1 = {| mem := exec (main_until_wait cfg w) initial_state;
                    pc := MainBlocked |}) as Hsys1.
  { subst sys1. unfold step, boot_system. cbn [pc mem]. rewrite Hlink.
    unfold wake. cbn [pc mem]. now rewrite main_until_wait_exec. }
  assert (trace (mem sys1) =
            [Printk "TCP Client sample has started\n" []; WorkInit]
            ++ low_power_events cfg w
            ++ (if nonzero (low_power_result cfg w)
                then [Printk "Unable to set low power configuration, error: %d\n"
                        [ArgInt (low_power_result cfg w)]]
                else [])
            ++ modem_configure_events cfg w) as Htr.
  { rewrite Hsys1. cbn [mem]. rewrite main_until_wait_exec.
    unfold startup_events. now rewrite Hlink. }
  split; [intros s; eexists; apply configure_low_power_exec|].
  split; [apply low_power_only_requests|].
  split; [now rewrite Hsys1|].
  split.
  { eexists. split; [exact Htr|]. now destruct (nonzero (low_power_result cfg w)). }
  intros Hauto. split.
  - rewrite Htr. unfold modem_configure_events, request_events. rewrite Hauto.
    apply in_or_app. right. apply in_or_app. right. apply in_or_app. right.
    now left.
  - intros Hreg sys2.
    assert (lte_evt_handler (mem sys1) = true) as Hh.
    { rewrite Hsys1. cbn [mem]. rewrite main_until_wait_exec. cbn.
      now rewrite Hlink, Hauto. }
    assert (lte_connected (mem sys1) = 0) as Hc.
    { rewrite Hsys1. cbn [mem]. now rewrite main_until_wait_exec. }
    assert (pc sys1 = MainBlocked) as Hpc by now rewrite Hsys1.
    pose proof (run_blocked cfg w evs sys1 Hpc Hc Hh) as Hrun.
    cbn zeta in Hrun. rewrite Hreg in Hrun. exact Hrun.
Qed.

Lemma low_power_failures_not_fatal_witness :
  let cfg := scenario_config true in
  let w := world_low_power_rejected in
  let evs := [LTE_LC_EVT_NW_REG_STATUS LTE_LC_NW_REG_REGISTERED_HOME] in
  let sys1 := step cfg w boot_system Boot in
  let sys2 := run cfg w sys1 (map LteEvent evs) in
  CONFIG_LTE_LINK_CONTROL cfg = true
  /\ modem_psm_req w true <> 0%Z
  /\ pc sys1 = MainBlocked
  /\ pc sys2 = MainReturned
  /\ In (Socket AF_INET SOCK_STREAM IPPROTO_TCP 3) (trace (mem sys2)).
Proof.
  intros cfg w evs sys1 sys2.
  assert (CONFIG_LTE_LINK_CONTROL cfg = true) as Hlink by reflexivity.
  destruct (low_power_failures_not_fatal cfg w evs Hlink)
    as (_ & _ & Hpc & _ & Hgo).
  destruct (Hgo eq_refl) as [_ Hconnect].
  destruct (Hconnect eq_refl) as [Hret Hsock].
  split; [exact Hlink|]. split; [discriminate|]. split; [exact Hpc|].
  split; [exact Hret | exact Hsock].
Defined.

(** ** Disconnecting, initialising, partial sends *)

(** C8: [client_disconnect] is idempotent.  It returns nothing; after one
    call the descriptor in [client_fd] is not open; a second call in
    succession releases nothing further: its [close] is answered with -1
    ([EBADF]), which is discarded, and the state is that after one call up
    to [errno] and the trace entry of that second [close]. *)
Theorem client_disconnect_idempotent (s : state) :
  let s1 := exec client_disconnect s in
  let s2 := exec client_disconnect s1 in
  client_disconnect s = (tt, s1)
  /\ client_disconnect s1 = (tt, s2)
  /\ (client_fd s1 ∉ open_fds s1)
  /\ open_fds s1 = open_fds s ∖ {[client_fd s]}
  /\ client_fd s1 = client_fd s
  /\ s2 = set_errno EBADF (append_trace [Close (client_fd s) (-1)] s1).
Proof.
  cbv zeta. unfold exec. rewrite !client_disconnect_exec. cbn [snd].
  destruct (close_releases (client_fd s) s) as [Hfd Hopen]. cbn zeta in Hfd, Hopen.
  remember (snd (close (client_fd s) s)) as s1 eqn:Hs1. clear Hs1.
  assert (client_fd s1 ∉ open_fds s1) as Hrel.
  { rewrite Hfd, Hopen. intros [_ Hn]%elem_of_difference.
    apply Hn. now apply elem_of_singleton. }
  repeat split; try assumption.
  rewrite (close_released (client_fd s1) s1 Hrel), Hfd. reflexivity.
Qed.

(** C9: [client_init] returns 0 whatever [inet_pton] answers, so that in no
    run from boot, whatever the environment and the inputs, [main] prints
    the message of its initialisation-failure branch. *)
Theorem client_init_never_fails (cfg : config) (w : world) (s : state) (ins : list input) :
  result (client_init cfg w) s = 0%Z
  /\ only is_init_failure (trace (mem (run cfg w boot_system ins))) = [].
Proof.
  split.
  - unfold result. now rewrite client_init_exec.
  - destruct (run_emits cfg w boot_system ins) as (evs & -> & Hclean).
    exact Hclean.
Qed.

(** C10: a partial send is a success.  The failure path of a firing (the
    one that closes the socket) is taken exactly when [send] returns a
    strictly negative value; for every result r with 0 <= r < payload size
    the socket is left open and the work item is re-armed with the
    configured interval. *)
Theorem partial_send_rearms (cfg : config) (w : world) (s : state) :
  let r := fst (os_send w (n_send s)) in
  let s' := exec (server_transmission_work_fn cfg w) s in
  exists evs : list event,
    trace s' = trace s ++ evs
    /\ (only is_close evs <> [] <-> (r < 0)%Z)
    /\ ((0 <= r < CONFIG_TCP_DATA_UPLOAD_SIZE_BYTES cfg)%Z ->
        only is_close evs = []
        /\ only is_submit evs =
             [WorkSubmit (K_SECONDS (CONFIG_TCP_DATA_UPLOAD_FREQUENCY_SECONDS cfg))]
        /\ open_fds s' = open_fds s
        /\ work_pending s' =
             Some (K_SECONDS (CONFIG_TCP_DATA_UPLOAD_FREQUENCY_SECONDS cfg))).
Proof.
  intros r s'. subst r s'.
  destruct (work_fn_trace cfg w s) as (Htr & _).
  exists (firing_events cfg w s). split; [exact Htr|].
  unfold firing_events, announce, the_send.
  destruct (Z.ltb_spec (fst (os_send w (n_send s))) 0) as [Hr|Hr]; cbn.
  - split; [split; [intros _; exact Hr | discriminate]|]. lia.
  - split; [split; [congruence | lia]|].
    intros _. rewrite (work_fn_sent cfg w s Hr). auto.
Qed.

Lemma partial_send_rearms_witness :
  let s := initial_state in
  let s' := exec (server_transmission_work_fn (scenario_config false)
                    world_partial_send) s in
  (0 <= fst (os_send world_partial_send (n_send s))
   < CONFIG_TCP_DATA_UPLOAD_SIZE_BYTES (scenario_config false))%Z
  /\ open_fds s' = open_fds s
  /\ work_pending s' = Some (K_SECONDS 60).
Proof.
  intros s s'.
  destruct (partial_send_rearms (scenario_config false) world_partial_send s)
    as (evs & _ & _ & Hpartial).
  assert (0 <= fst (os_send world_partial_send (n_send s))
          < CONFIG_TCP_DATA_UPLOAD_SIZE_BYTES (scenario_config false))%Z as Hr
    by (split; [discriminate | reflexivity]).
  destruct (Hpartial Hr) as (_ & _ & Hopen & Hpend).
  split; [exact Hr|]. split; [exact Hopen | exact Hpend].
Defined.

(** * Further properties of main.c *)

(** ** Low-power configuration *)

(** X1: [configure_low_power] issues one PSM request and one eDRX request,
    each with its configured flag, and a RAI request only when RAI is
    enabled, then always with [true]; it changes nothing but the trace, and
    its result is that of the last request issued, so that an earlier
    failure is logged but not returned. *)
Theorem configure_low_power_returns_last_request (cfg : config) (w : world) (s : state) :
  let psm := CONFIG_TCP_PSM_ENABLE cfg in
  let edrx := CONFIG_TCP_EDRX_ENABLE cfg in
  exists evs : list event,
    configure_low_power cfg w s =
      (if CONFIG_TCP_RAI_ENABLE cfg then modem_rai_req w true else modem_edrx_req w edrx,
       append_trace evs s)
    /\ only is_power_request evs =
         PsmReq psm (modem_psm_req w psm)
         :: EdrxReq edrx (modem_edrx_req w edrx)
         :: (if CONFIG_TCP_RAI_ENABLE cfg then [RaiReq true (modem_rai_req w true)] else [])
    /\ forallb (fun e => is_power_request e || is_printk e) evs = true
    /\ (length (only is_printk evs) =
          (if nonzero (modem_psm_req w psm) then 1 else 0)
          + (if nonzero (modem_edrx_req w edrx) then 1 else 0)
          + (if CONFIG_TCP_RAI_ENABLE cfg && nonzero (modem_rai_req w true) then 1 else 0))%nat.
Proof.
  intros psm edrx. exists (low_power_events cfg w).
  split; [apply configure_low_power_exec|].
  split; [|split; [apply low_power_only_requests|]];
    unfold low_power_events, request_events; subst psm edrx;
    destruct (CONFIG_TCP_RAI_ENABLE cfg);
    repeat match goal with
           | |- context [nonzero ?z] => destruct (nonzero z)
           end; reflexivity.
Qed.

(** ** Link control on and off *)

Definition is_socket (e : event) : bool :=
  match e with Socket _ _ _ _ => true | _ => false end.

Definition is_connect (e : event) : bool :=
  match e with Connect _ _ _ => true | _ => false end.

(** Calls into the LTE link-control library and on the semaphore. *)
Definition is_link_call (e : event) : bool :=
  match e with
  | PsmReq _ _ | EdrxReq _ _ | RaiReq _ _ | InitAndConnectAsync _
  | SemGive | SemTake _ => true
  | _ => false
  end.

(** A configuration with link control in which the modem is initialised
    and connected automatically. *)
Definition auto_connect_config : config := {|
  CONFIG_TCP_DATA_UPLOAD_SIZE_BYTES := 10;
  CONFIG_TCP_DATA_UPLOAD_FREQUENCY_SECONDS := 60;
  CONFIG_TCP_SERVER_ADDRESS_STATIC := "10.0.0.5";
  CONFIG_TCP_SERVER_PORT := 4321;
  CONFIG_LTE_LINK_CONTROL := true;
  CONFIG_TCP_PSM_ENABLE := true;
  CONFIG_TCP_EDRX_ENABLE := false;
  CONFIG_TCP_RAI_ENABLE := true;
  CONFIG_LTE_AUTO_INIT_AND_CONNECT := true
|}.

(** What [main] calls before it waits. *)
Definition is_startup_call (e : event) : bool :=
  match e with
  | Printk _ _ | WorkInit | PsmReq _ _ | EdrxReq _ _ | RaiReq _ _
  | InitAndConnectAsync _ => true
  | _ => false
  end.

Lemma startup_calls (cfg : config) (w : world) :
  forallb is_startup_call (startup_events cfg w) = true.
Proof.
  unfold startup_events, low_power_events, modem_configure_events, request_events.
  destruct (CONFIG_LTE_LINK_CONTROL cfg); [|reflexivity].
  destruct (CONFIG_TCP_RAI_ENABLE cfg), (CONFIG_LTE_AUTO_INIT_AND_CONNECT cfg);
    repeat match goal with
           | |- context [nonzero ?z] => destruct (nonzero z)
           end; reflexivity.
Qed.

(** A trace all of whose events satisfy [q] has no event selected by a
    [p] that excludes [q]. *)
Lemma only_none (p q : event -> bool) (t : list event) :
  (forall e, p e = true -> q e = false) ->
  forallb q t = true -> only p t = [].
Proof.
  intros Hpq. unfold only. induction t as [|e t IH]; [reflexivity|].
  cbn [forallb List.filter]. intros [He Ht]%andb_prop.
  destruct (p e) eqn:Hp; [|auto].
  rewrite (Hpq e Hp) in He. discriminate.
Qed.

(** X2: with link control and [CONFIG_LTE_AUTO_INIT_AND_CONNECT] enabled,
    [modem_configure] registers no handler, so nothing ever gives
    [lte_connected]: whatever the inputs, [main] never returns from
    [k_sem_take], no socket is created, nothing is sent and the work item
    is never submitted; after boot the system stays in the state in which
    [main] blocked. *)
Theorem auto_connect_blocks_forever (cfg : config) (w : world) (ins : list input) :
  CONFIG_LTE_LINK_CONTROL cfg = true ->
  CONFIG_LTE_AUTO_INIT_AND_CONNECT cfg = true ->
  let sys := run cfg w boot_system ins in
  (sys = boot_system
   \/ sys = {| mem := exec (main_until_wait cfg w) initial_state; pc := MainBlocked |})
  /\ (In Boot ins -> pc sys = MainBlocked)
  /\ pc sys <> MainReturned
  /\ lte_evt_handler (mem sys) = false
  /\ work_pending (mem sys) = None
  /\ only is_socket (trace (mem sys)) = []
  /\ only is_send (trace (mem sys)) = []
  /\ only is_submit (trace (mem sys)) = [].
Proof.
  intros Hlink Hauto sys.
  assert (exec (main_until_wait cfg w) initial_state =
            append_trace (startup_events cfg w)
              (set_lte_evt_handler false (set_work_initialised true initial_state)))
    as Hmem.
  { rewrite main_until_wait_exec. now rewrite Hlink, Hauto. }
  rewrite Hmem.
  remember {| mem := append_trace (startup_events cfg w)
                       (set_lte_evt_handler false (set_work_initialised true initial_state));
              pc := MainBlocked |} as blocked eqn:Hblocked.
  assert (step cfg w boot_system Boot = blocked) as Hboot.
  { cbn [step boot_system pc mem]. rewrite Hlink, Hmem. subst blocked. reflexivity. }
  assert (forall i, step cfg w blocked i = blocked) as Hstay.
  { intros i. subst blocked. destruct i; reflexivity. }
  assert (forall x ins', (x = boot_system \/ x = blocked) ->
            let y := run cfg w x ins' in
            (y = boot_system \/ y = blocked)
            /\ (x = blocked \/ In Boot ins' -> y = blocked)) as Hinv.
  { intros x ins'. revert x. induction ins' as [|i ins' IH]; intros x Hx.
    - cbn. split; [exact Hx|]. intros [H|[]]. exact H.
    - cbn [run fold_left]. change (fold_left (step cfg w) ins' ?z) with (run cfg w z ins').
      destruct Hx as [-> | ->].
      + destruct i.
        * rewrite Hboot. destruct (IH blocked (or_intror eq_refl)) as [H1 H2].
          split; [exact H1|]. intros _. apply H2. now left.
        * change (step cfg w boot_system (LteEvent evt)) with boot_system.
          destruct (IH boot_system (or_introl eq_refl)) as [H1 H2].
          split; [exact H1|]. intros [H|[H|H]]; [apply H2; now left | discriminate H |].
          apply H2. now right.
        * change (step cfg w boot_system WorkTimeout) with boot_system.
          destruct (IH boot_system (or_introl eq_refl)) as [H1 H2].
          split; [exact H1|]. intros [H|[H|H]]; [apply H2; now left | discriminate H |].
          apply H2. now right.
      + rewrite Hstay. destruct (IH blocked (or_intror eq_refl)) as [H1 H2].
        split; [exact H1|]. intros _. apply H2. now left. }
  destruct (Hinv boot_system ins (or_introl eq_refl)) as [Hsys Hin].
  fold sys in Hsys, Hin.
  split; [exact Hsys|].
  split; [intros Hb; rewrite Hin by (now right); now subst blocked|].
  assert (forall p, (forall e, p e = true -> is_startup_call e = false) ->
                    only p (startup_events cfg w) = []) as Hnone.
  { intros p Hp. apply (only_none p is_startup_call); [exact Hp | apply startup_calls]. }
  destruct Hsys as [-> | ->].
  - repeat split; discriminate.
  - subst blocked. cbn.
    repeat split; try discriminate; apply Hnone; intros []; cbn; congruence.
Qed.

Lemma auto_connect_blocks_forever_witness :
  let cfg := auto_connect_config in
  let w := world_third_send_fails in
  let ins := [Boot; LteEvent (LTE_LC_EVT_NW_REG_STATUS LTE_LC_NW_REG_REGISTERED_HOME);
              WorkTimeout] in
  CONFIG_LTE_LINK_CONTROL cfg = true
  /\ CONFIG_LTE_AUTO_INIT_AND_CONNECT cfg = true
  /\ pc (run cfg w boot_system ins) = MainBlocked
  /\ only is_socket (trace (mem (run cfg w boot_system ins))) = [].
Proof.
  intros cfg w ins.
  destruct (auto_connect_blocks_forever cfg w ins eq_refl eq_refl)
    as (_ & Hpc & _ & _ & _ & Hsock & _).
  split; [reflexivity|]. split; [reflexivity|].
  split; [apply Hpc; now left | exact Hsock].
Defined.

(** What [main] calls from [client_init] to its end. *)
Definition is_session_call (e : event) : bool :=
  match e with
  | Printk _ _ | InetPton _ _ _ | Socket _ _ _ _ | Connect _ _ _ | Close _ _
  | WorkSubmit _ => true
  | _ => false
  end.

Lemma session_calls (cfg : config) (w : world) (h : sockaddr_in) :
  forallb is_session_call (session_events cfg w h) = true.
Proof.
  unfold session_events, inet_pton_event.
  destruct (fst (os_socket w) <? 0)%Z; [reflexivity|].
  destruct (fst (os_connect w (fst (os_socket w))) <? 0)%Z; reflexivity.
Qed.

(** What a firing of the work item calls. *)
Definition is_firing_call (e : event) : bool :=
  match e with
  | Printk _ _ | Send _ _ _ _ _ | Close _ _ | WorkSubmit _ => true
  | _ => false
  end.

Lemma firing_calls (cfg : config) (w : world) (s : state) :
  forallb is_firing_call (firing_events cfg w s) = true.
Proof.
  unfold firing_events, announce, the_send.
  destruct (fst (os_send w (n_send s)) <? 0)%Z; reflexivity.
Qed.

Lemma step_pc_no_link (cfg : config) (w : world) (x : system) (i : input) :
  CONFIG_LTE_LINK_CONTROL cfg = false ->
  pc x <> MainBlocked ->
  pc (step cfg w x i) =
    match pc x, i with
    | MainReady, Boot => MainReturned
    | p, _ => p
    end.
Proof.
  intros Hlink Hpc. destruct x as [s p]. cbn [pc] in *.
  destruct i; cbn [step pc mem].
  - destruct p; try reflexivity. now rewrite Hlink.
  - destruct (lte_evt_handler s); [|now destruct p].
    unfold wake. cbn [pc mem]. destruct p; try reflexivity. contradiction.
  - destruct (work_pending s); now destruct p.
Qed.

(** X3: without [CONFIG_LTE_LINK_CONTROL], [main] runs from start to end
    at boot without waiting; in no run is the LTE library called or the
    semaphore used, no handler is ever registered, and an LTE event changes
    nothing. *)
Theorem no_link_control_no_lte (cfg : config) (w : world) (ins : list input) :
  CONFIG_LTE_LINK_CONTROL cfg = false ->
  let sys := run cfg w boot_system ins in
  lte_evt_handler (mem sys) = false
  /\ only is_link_call (trace (mem sys)) = []
  /\ (forall evt, step cfg w sys (LteEvent evt) = sys)
  /\ pc sys <> MainBlocked
  /\ (In Boot ins -> pc sys = MainReturned).
Proof.
  intros Hlink sys.
  assert (lte_evt_handler (mem sys) = false
          /\ only is_link_call (trace (mem sys)) = []
          /\ pc sys <> MainBlocked) as (Hh & Htr & Hpc).
  { apply run_invariant
      with (I := fun x => lte_evt_handler (mem x) = false
                          /\ only is_link_call (trace (mem x)) = []
                          /\ pc x <> MainBlocked).
    - intros a b Hact (Hh & Htr & Hpc).
      destruct Hact as [s Hl|s n Hc|s Hl|s p evt Hev|s p d Hd]; cbn [mem pc] in *;
        try congruence.
      + destruct (main_after_wait_trace cfg w (exec (main_until_wait cfg w) s))
          as (-> & _ & _ & _ & -> & _).
        rewrite main_until_wait_exec. cbn. rewrite Hlink. cbn.
        split; [exact Hh|]. split; [|discriminate].
        rewrite !only_app, Htr.
        unfold startup_events. rewrite Hlink. cbn [app only List.filter is_link_call].
        apply (only_none is_link_call is_session_call);
          [intros []; cbn; congruence | apply session_calls].
      + destruct (work_fn_trace cfg w (set_work_pending None s))
          as (-> & _ & _ & _ & _ & ->).
        cbn. split; [exact Hh|]. split; [|exact Hpc].
        rewrite only_app, Htr.
        apply (only_none is_link_call is_firing_call);
          [intros []; cbn; congruence | apply firing_calls].
    - repeat split. discriminate. }
  split; [exact Hh|]. split; [exact Htr|].
  split; [intros evt; cbn [step]; now rewrite Hh|].
  split; [exact Hpc|].
  assert (forall x ins', pc x <> MainBlocked ->
            (pc x = MainReturned \/ In Boot ins') ->
            pc (run cfg w x ins') = MainReturned) as Hrun.
  { intros x ins'. revert x. induction ins' as [|i ins' IH]; intros x Hx Hgo.
    - destruct Hgo as [H|[]]. exact H.
    - cbn [run fold_left]. change (fold_left (step cfg w) ins' ?z) with (run cfg w z ins').
      pose proof (step_pc_no_link cfg w x i Hlink Hx) as Hstep.
      apply IH.
      + rewrite Hstep. destruct (pc x), i; congruence.
      + destruct Hgo as [H|[H|H]].
        * left. rewrite Hstep, H. reflexivity.
        * subst i. left. rewrite Hstep. destruct (pc x); try reflexivity. contradiction.
        * now right. }
  intros Hin. apply Hrun; [discriminate | now right].
Qed.

Lemma no_link_control_no_lte_witness :
  let cfg := scenario_config false in
  let w := world_third_send_fails in
  let ins := [LteEvent (LTE_LC_EVT_NW_REG_STATUS LTE_LC_NW_REG_REGISTERED_HOME); Boot;
              WorkTimeout] in
  CONFIG_LTE_LINK_CONTROL cfg = false
  /\ pc (run cfg w boot_system ins) = MainReturned
  /\ only is_link_call (trace (mem (run cfg w boot_system ins))) = [].
Proof.
  intros cfg w ins.
  destruct (no_link_control_no_lte cfg w ins eq_refl) as (_ & Htr & _ & _ & Hpc).
  split; [reflexivity|]. split; [apply Hpc; cbn; tauto | exact Htr].
Defined.

(** ** The server address *)


(** [htons] on a 16-bit value, arithmetically. *)
Lemma htons_bytes (p : Z) :
  (0 <= p < 65536)%Z -> htons p = (256 * (p mod 256) + p / 256)%Z.
Proof.
  intros Hp. unfold htons.
  assert (Z.land p 255 = p mod 256)%Z as ->
    by (change 255%Z with (Z.ones 8); now rewrite Z.land_ones by lia).
  assert (Z.shiftr p 8 = p / 256)%Z as -> by (now rewrite Z.shiftr_div_pow2 by lia).
  assert (0 <= p / 256 < 256)%Z as Hhi
    by (split; [apply Z.div_pos; lia | apply Z.div_lt_upper_bound; lia]).
  assert (Z.land (p / 256) 255 = p / 256)%Z as Hmask
    by (change 255%Z with (Z.ones 8); rewrite Z.land_ones by lia; now apply Z.mod_small).
  rewrite Hmask.
  assert (Z.shiftl (p mod 256) 8 = p mod 256 * 256)%Z as Hsh
    by (now rewrite Z.shiftl_mul_pow2 by lia).
  assert (Z.land (Z.shiftl (p mod 256) 8) (p / 256) = 0)%Z as Hdisj.
  { rewrite <- Hmask, (Z.land_comm (p / 256)), Z.land_assoc.
    change 255%Z with (Z.ones 8). rewrite Z.land_ones by lia.
    rewrite Hsh. change (2 ^ 8)%Z with 256%Z. rewrite Z.mod_mul by lia.
    apply Z.land_0_l. }
  rewrite <- Z.lxor_lor, <- Z.add_nocarry_lxor by exact Hdisj.
  rewrite Hsh. lia.
Qed.

(** X4: for a valid port number, [client_init] stores it in [host_addr]
    with its two bytes swapped: the stored value is again a 16-bit value,
    its low byte is the high byte of the port and its high byte the low
    byte, and swapping it back gives the port. *)
Theorem client_init_port_network_order (cfg : config) (w : world) (s : state) :
  (0 <= CONFIG_TCP_SERVER_PORT cfg < 65536)%Z ->
  let port := CONFIG_TCP_SERVER_PORT cfg in
  let stored := sin_port (host_addr (exec (client_init cfg w) s)) in
  (0 <= stored < 65536)%Z
  /\ (stored mod 256 = port / 256)%Z
  /\ (stored / 256 = port mod 256)%Z
  /\ htons stored = port.
Proof.
  intros Hp port stored.
  assert (stored = htons port) as Hs.
  { subst stored. unfold exec. now rewrite client_init_exec. }
  assert (stored = 256 * (port mod 256) + port / 256)%Z as Hst
    by (rewrite Hs; now apply htons_bytes).
  assert (0 <= port mod 256 < 256)%Z as Hlo by (apply Z.mod_pos_bound; lia).
  assert (0 <= port / 256 < 256)%Z as Hhi
    by (split; [apply Z.div_pos; lia | apply Z.div_lt_upper_bound; lia]).
  assert (0 <= stored < 65536)%Z as Hrange by lia.
  assert (stored mod 256 = port / 256)%Z as Hm.
  { rewrite Hst, Z.add_comm, Z.mul_comm, Z.mod_add by lia. now apply Z.mod_small. }
  assert (stored / 256 = port mod 256)%Z as Hd.
  { rewrite Hst, Z.add_comm, Z.mul_comm, Z.div_add by lia.
    rewrite Z.div_small by exact Hhi. lia. }
  repeat split; try lia.
  rewrite (htons_bytes stored Hrange), Hm, Hd.
  pose proof (Z.div_mod port 256). lia.
Qed.

Lemma client_init_port_network_order_witness :
  let cfg := scenario_config false in
  (0 <= CONFIG_TCP_SERVER_PORT cfg < 65536)%Z
  /\ sin_port (host_addr (exec (client_init cfg world_no_socket) initial_state)) = 57616%Z
  /\ htons 57616 = 4321%Z.
Proof.
  intros cfg.
  assert (0 <= CONFIG_TCP_SERVER_PORT cfg < 65536)%Z as Hp by (split; [discriminate | reflexivity]).
  destruct (client_init_port_network_order cfg world_no_socket initial_state Hp)
    as (_ & _ & _ & Hback).
  split; [exact Hp|]. split; [reflexivity | exact Hback].
Defined.

Section Address.

Variable cfg : config.
Variable w : world.





End Address.


(** ** The work queue *)

(** Calls on the work item. *)
Definition is_work_call (e : event) : bool :=
  match e with WorkInit | WorkSubmit _ => true | _ => false end.

Section WorkQueue.

Variable cfg : config.
Variable w : world.

Definition rearm : event :=
  WorkSubmit (K_SECONDS (CONFIG_TCP_DATA_UPLOAD_FREQUENCY_SECONDS cfg)).

(** The calls on the work item so far: none before boot; then
    [k_delayed_work_init]; then, once [main] has submitted the item with
    [K_NO_WAIT], any number of submissions with the configured interval. *)
Definition work_calls_inv (sys : system) : Prop :=
  let calls := only is_work_call (trace (mem sys)) in
  match pc sys with
  | MainReady => calls = [] /\ work_pending (mem sys) = None
  | MainBlocked => calls = [WorkInit] /\ work_pending (mem sys) = None
  | MainReturned =>
      (calls = [WorkInit] /\ work_pending (mem sys) = None)
      \/ exists k, calls = WorkInit :: WorkSubmit K_NO_WAIT :: replicate k rearm
  end.

Lemma startup_work_calls : only is_work_call (startup_events cfg w) = [WorkInit].
Proof.
  unfold startup_events, low_power_events, modem_configure_events, request_events.
  destruct (CONFIG_LTE_LINK_CONTROL cfg); [|reflexivity].
  destruct (CONFIG_TCP_RAI_ENABLE cfg), (CONFIG_LTE_AUTO_INIT_AND_CONNECT cfg);
    repeat match goal with
           | |- context [nonzero ?z] => destruct (nonzero z)
           end; reflexivity.
Qed.

Lemma session_work_calls (h : sockaddr_in) :
  only is_work_call (session_events cfg w h) =
    if main_arms w then [WorkSubmit K_NO_WAIT] else [].
Proof.
  unfold session_events, inet_pton_event, main_arms.
  destruct (fst (os_socket w) <? 0)%Z; [reflexivity|].
  destruct (fst (os_connect w (fst (os_socket w))) <? 0)%Z; reflexivity.
Qed.

Lemma firing_work_calls (s : state) :
  only is_work_call (firing_events cfg w s) =
    if (fst (os_send w (n_send s)) <? 0)%Z then [] else [rearm].
Proof.
  unfold firing_events, announce, the_send.
  destruct (fst (os_send w (n_send s)) <? 0)%Z; reflexivity.
Qed.

Lemma replicate_snoc (k : nat) (e : event) : replicate k e ++ [e] = replicate (S k) e.
Proof. induction k as [|k IH]; [reflexivity|]. cbn. now rewrite IH. Qed.

Lemma work_calls_inv_action (a b : system) :
  action cfg w a b -> work_calls_inv a -> work_calls_inv b.
Proof.
  unfold work_calls_inv. intros Hact Ha.
  destruct Hact as [s Hl|s n Hc|s Hl|s p evt Hh|s p d Hd]; cbn [mem pc] in *.
  - destruct Ha as [Hcalls Hp]. rewrite main_until_wait_exec. cbn.
    rewrite only_app, Hcalls, startup_work_calls. auto.
  - destruct Ha as [Hcalls Hp].
    destruct (main_after_wait_trace cfg w
                (emit (SemTake K_FOREVER) (set_lte_connected n s))) as (-> & -> & _).
    cbn. rewrite !only_app, Hcalls, session_work_calls, Hp. cbn.
    destruct (main_arms w); [right; now exists 0 | now left].
  - destruct Ha as [Hcalls Hp].
    destruct (main_after_wait_trace cfg w (exec (main_until_wait cfg w) s))
      as (-> & -> & _).
    rewrite main_until_wait_exec. cbn.
    rewrite !only_app, Hcalls, startup_work_calls, session_work_calls, Hp. cbn.
    destruct (main_arms w); [right; now exists 0 | now left].
  - assert (only is_work_call (trace (exec (lte_handler w evt) s)) =
              only is_work_call (trace s)
            /\ work_pending (exec (lte_handler w evt) s) = work_pending s) as [-> ->];
      [|exact Ha].
    destruct (is_registration evt) eqn:Hreg.
    + destruct (lte_handler_registration w evt s Hreg) as [msg ->]. cbn.
      rewrite only_app. cbn. now rewrite app_nil_r.
    + destruct (lte_handler_other w evt s Hreg) as (logs & -> & Hlogs & _). cbn.
      rewrite only_app, (only_none is_work_call is_printk logs), app_nil_r;
        [auto | intros []; cbn; congruence | exact Hlogs].
  - destruct (work_fn_trace cfg w (set_work_pending None s)) as (-> & -> & _). cbn.
    change (firing_events cfg w (set_work_pending None s)) with (firing_events cfg w s).
    rewrite only_app, firing_work_calls.
    destruct p; try (destruct Ha as [_ Hp]; congruence).
    destruct Ha as [[_ Hp] | [k Hk]]; [congruence|].
    right. rewrite Hk.
    destruct (fst (os_send w (n_send s)) <? 0)%Z.
    + exists k. now rewrite app_nil_r.
    + exists (S k). cbn. now rewrite replicate_snoc.
Qed.

End WorkQueue.

(** X6: in every run from boot the calls on the work item come in this
    order: [k_delayed_work_init] first and once, by [main] before anything
    else can submit; then at most one submission with [K_NO_WAIT], by
    [main]; then only submissions with the configured interval
    [K_SECONDS(CONFIG_TCP_DATA_UPLOAD_FREQUENCY_SECONDS)]. *)
Theorem work_item_calls_in_order (cfg : config) (w : world) (ins : list input) :
  let calls := only is_work_call (trace (mem (run cfg w boot_system ins))) in
  calls = []
  \/ calls = [WorkInit]
  \/ exists k : nat,
       calls = WorkInit :: WorkSubmit K_NO_WAIT
               :: replicate k (WorkSubmit (K_SECONDS (CONFIG_TCP_DATA_UPLOAD_FREQUENCY_SECONDS cfg))).
Proof.
  intros calls.
  assert (work_calls_inv cfg (run cfg w boot_system ins)) as Hinv.
  { apply run_invariant with (I := work_calls_inv cfg).
    - apply work_calls_inv_action.
    - split; reflexivity. }
  unfold work_calls_inv in Hinv. fold calls in Hinv.
  destruct (pc (run cfg w boot_system ins)).
  - left. tauto.
  - right. left. tauto.
  - destruct Hinv as [[H _] | H]; [right; left | right; right]; assumption.
Qed.

(** ** One session per run *)

(** The calls that set a session up. *)
Definition is_setup_call (e : event) : bool := is_socket e || is_connect e.

Section OneSession.

Variable cfg : config.
Variable w : world.

Definition setup_calls_inv (sys : system) : Prop :=
  let calls := only is_setup_call (trace (mem sys)) in
  let fd := fst (os_socket w) in
  match pc sys with
  | MainReturned =>
      exists addr,
        calls = Socket AF_INET SOCK_STREAM IPPROTO_TCP fd
                :: (if (fd <? 0)%Z then [] else [Connect fd addr (fst (os_connect w fd))])
  | _ => calls = [] /\ work_pending (mem sys) = None
  end.

Lemma session_setup_calls (h : sockaddr_in) :
  let fd := fst (os_socket w) in
  only is_setup_call (session_events cfg w h) =
    Socket AF_INET SOCK_STREAM IPPROTO_TCP fd
    :: (if (fd <? 0)%Z then []
        else [Connect fd (server_sockaddr cfg w h) (fst (os_connect w fd))]).
Proof.
  unfold session_events, inet_pton_event.
  destruct (fst (os_socket w) <? 0)%Z; [reflexivity|].
  destruct (fst (os_connect w (fst (os_socket w))) <? 0)%Z; reflexivity.
Qed.

Lemma setup_calls_inv_action (a b : system) :
  action cfg w a b -> setup_calls_inv a -> setup_calls_inv b.
Proof.
  unfold setup_calls_inv. intros Hact Ha.
  destruct Hact as [s Hl|s n Hc|s Hl|s p evt Hh|s p d Hd]; cbn [mem pc] in *.
  - destruct Ha as [Hcalls Hp]. rewrite main_until_wait_exec. cbn.
    rewrite only_app, Hcalls. split; [|exact Hp].
    apply (only_none is_setup_call is_startup_call);
      [intros []; cbn; congruence | apply startup_calls].
  - destruct Ha as [Hcalls Hp].
    destruct (main_after_wait_trace cfg w
                (emit (SemTake K_FOREVER) (set_lte_connected n s))) as (-> & _).
    cbn. rewrite !only_app, Hcalls, session_setup_calls. cbn. eauto.
  - destruct Ha as [Hcalls Hp].
    destruct (main_after_wait_trace cfg w (exec (main_until_wait cfg w) s)) as (-> & _).
    rewrite main_until_wait_exec. cbn.
    rewrite !only_app, Hcalls, session_setup_calls.
    rewrite (only_none is_setup_call is_startup_call)
      by first [apply startup_calls | intros []; cbn; congruence].
    cbn. eauto.
  - assert (only is_setup_call (trace (exec (lte_handler w evt) s)) =
              only is_setup_call (trace s)
            /\ work_pending (exec (lte_handler w evt) s) = work_pending s) as [-> ->];
      [|exact Ha].
    destruct (is_registration evt) eqn:Hreg.
    + destruct (lte_handler_registration w evt s Hreg) as [msg ->]. cbn.
      rewrite only_app. cbn. now rewrite app_nil_r.
    + destruct (lte_handler_other w evt s Hreg) as (logs & -> & Hlogs & _). cbn.
      rewrite only_app, (only_none is_setup_call is_printk logs), app_nil_r;
        [auto | intros []; cbn; congruence | exact Hlogs].
  - destruct (work_fn_trace cfg w (set_work_pending None s)) as (-> & _).
    destruct p; try (destruct Ha as [_ Hp]; congruence).
    cbn. rewrite only_app.
    rewrite (only_none is_setup_call is_firing_call (firing_events cfg w _))
      by first [apply firing_calls | intros []; cbn; congruence].
    now rewrite app_nil_r.
Qed.

End OneSession.

(** X7: a run sets up at most one session.  Before [main] has returned
    there is no [socket] and no [connect] call; once it has returned there
    has been exactly one [socket] call and, when that succeeded, exactly one
    [connect] call on its descriptor, and nothing that happens later (a
    failed [connect], a failed [send], LTE events, timer expiries) adds
    another: the program never retries and never reconnects. *)
Theorem session_set_up_once (cfg : config) (w : world) (ins : list input) :
  let sys := run cfg w boot_system ins in
  let calls := only is_setup_call (trace (mem sys)) in
  let fd := fst (os_socket w) in
  (pc sys <> MainReturned -> calls = [])
  /\ (pc sys = MainReturned ->
      exists addr,
        calls = Socket AF_INET SOCK_STREAM IPPROTO_TCP fd
                :: (if (fd <? 0)%Z then [] else [Connect fd addr (fst (os_connect w fd))])).
Proof.
  intros sys calls fd.
  assert (setup_calls_inv w sys) as Hinv.
  { apply run_invariant with (I := setup_calls_inv w).
    - apply setup_calls_inv_action.
    - split; reflexivity. }
  unfold setup_calls_inv in Hinv. fold calls fd in Hinv.
  destruct (pc sys); split; try congruence; try tauto.
Qed.

Lemma session_set_up_once_witness :
  let cfg := scenario_config false in
  let w := world_connect_fails 111 in
  let sys := run cfg w boot_system [Boot; WorkTimeout; Boot; WorkTimeout] in
  pc sys = MainReturned
  /\ length (only is_setup_call (trace (mem sys))) = 2.
Proof.
  intros cfg w sys.
  assert (pc sys = MainReturned) as Hpc by reflexivity.
  destruct (session_set_up_once cfg w [Boot; WorkTimeout; Boot; WorkTimeout]) as [_ Hret].
  destruct (Hret Hpc) as [addr Hcalls].
  split; [exact Hpc|]. fold sys in Hcalls. now rewrite Hcalls.
Defined.

(** ** Descriptors *)

Lemma singleton_only_closed (fd : Z) (X : gset Z) :
  X ⊆ {[fd]} -> X ∖ {[fd]} = ∅.
Proof.
  intros Hsub. apply set_eq. intros x.
  rewrite elem_of_difference, elem_of_empty. split; [|tauto].
  intros [Hx Hn]. apply Hn. now apply Hsub.
Qed.

Lemma singleton_opened (fd : Z) : ({[fd]} ∪ ∅ : gset Z) ⊆ {[fd]}.
Proof. rewrite union_empty_r_L. reflexivity. Qed.

Section Descriptors.

Variable cfg : config.
Variable w : world.

Lemma main_after_wait_open (s : state) :
  let fd := fst (os_socket w) in
  open_fds (exec (main_after_wait cfg w) s) =
    if (fd <? 0)%Z then open_fds s
    else if (fst (os_connect w fd) <? 0)%Z then ({[fd]} ∪ open_fds s) ∖ {[fd]}
         else {[fd]} ∪ open_fds s.
Proof.
  intros fd. subst fd. rewrite main_after_wait_exec.
  replace (exec (client_init cfg w) s)
    with (append_trace [inet_pton_event cfg w]
            (set_host_addr (server_sockaddr cfg w (host_addr s)) s))
    by (unfold exec; now rewrite client_init_exec).
  unfold exec, connect_and_arm, bind.
  destruct (Z.ltb_spec (fst (os_socket w)) 0) as [Hs|Hs].
  - now rewrite (client_connect_no_socket cfg w _ Hs).
  - destruct (Z.ltb_spec (fst (os_connect w (fst (os_socket w)))) 0) as [Hc|Hc].
    + rewrite (client_connect_refused cfg w _ Hs Hc).
      assert (nonzero (fst (os_connect w (fst (os_socket w)))) = true) as ->.
      { unfold nonzero.
        destruct (Z.eqb_spec (fst (os_connect w (fst (os_socket w)))) 0);
          [lia | reflexivity]. }
      reflexivity.
    + now rewrite (client_connect_connected cfg w _ Hs Hc).
Qed.

(** Only the descriptor that [socket] returned can be open; nothing is
    open before [main] has returned, nor whenever the work item is not
    pending. *)
Definition descriptor_inv (sys : system) : Prop :=
  open_fds (mem sys) ⊆ {[fst (os_socket w)]}
  /\ (work_pending (mem sys) = None -> open_fds (mem sys) = ∅)
  /\ (pc sys <> MainReturned -> work_pending (mem sys) = None)
  /\ (pc sys = MainReturned -> client_fd (mem sys) = fst (os_socket w)).

Lemma descriptor_after_main (s : state) :
  open_fds s = ∅ ->
  work_pending s = None ->
  let s' := exec (main_after_wait cfg w) s in
  open_fds s' ⊆ {[fst (os_socket w)]}
  /\ (work_pending s' = None -> open_fds s' = ∅).
Proof.
  intros Hopen Hp s'. subst s'.
  destruct (main_after_wait_trace cfg w s) as (_ & Hpend & _).
  rewrite Hpend, main_after_wait_open, Hopen, Hp. unfold main_arms.
  destruct (fst (os_socket w) <? 0)%Z; cbn [orb].
  - split; [apply empty_subseteq | discriminate].
  - destruct (fst (os_connect w (fst (os_socket w))) <? 0)%Z; cbn [negb].
    + rewrite (singleton_only_closed _ _ (singleton_opened _)).
      split; [apply empty_subseteq | reflexivity].
    + split; [apply singleton_opened | discriminate].
Qed.

Lemma descriptor_inv_action (a b : system) :
  action cfg w a b -> descriptor_inv a -> descriptor_inv b.
Proof.
  unfold descriptor_inv. intros Hact (Hsub & Hnone & Hpre & Hfd).
  destruct Hact as [s Hl|s n Hc|s Hl|s p evt Hh|s p d Hd]; cbn [mem pc] in *.
  - rewrite main_until_wait_exec. cbn.
    split; [exact Hsub|]. split; [exact Hnone|]. split; [auto | discriminate].
  - specialize (Hpre ltac:(discriminate)).
    assert (open_fds (emit (SemTake K_FOREVER) (set_lte_connected n s)) = ∅) as Ho
      by (cbn; auto).
    assert (work_pending (emit (SemTake K_FOREVER) (set_lte_connected n s)) = None) as Hw
      by (cbn; auto).
    destruct (descriptor_after_main _ Ho Hw) as [H1 H2].
    destruct (main_after_wait_trace cfg w
                (emit (SemTake K_FOREVER) (set_lte_connected n s)))
      as (_ & _ & _ & _ & _ & Hcfd).
    split; [exact H1|]. split; [exact H2|]. split; [congruence | now intros _].
  - specialize (Hpre ltac:(discriminate)).
    assert (open_fds (exec (main_until_wait cfg w) s) = ∅) as Ho
      by (rewrite main_until_wait_exec; cbn; auto).
    assert (work_pending (exec (main_until_wait cfg w) s) = None) as Hw
      by (rewrite main_until_wait_exec; cbn; auto).
    destruct (descriptor_after_main _ Ho Hw) as [H1 H2].
    destruct (main_after_wait_trace cfg w (exec (main_until_wait cfg w) s))
      as (_ & _ & _ & _ & _ & Hcfd).
    split; [exact H1|]. split; [exact H2|]. split; [congruence | now intros _].
  - destruct (handler_footprint w evt s) as [Hfoot Hwp]. cbn zeta in Hfoot, Hwp.
    unfold footprint in Hfoot.
    replace (open_fds (exec (lte_handler w evt) s)) with (open_fds s) by congruence.
    replace (client_fd (exec (lte_handler w evt) s)) with (client_fd s) by congruence.
    rewrite Hwp. auto.
  - assert (p = MainReturned) as ->.
    { destruct p; try reflexivity; rewrite Hpre in Hd by discriminate; discriminate. }
    specialize (Hfd eq_refl).
    destruct (Z.ltb_spec (fst (os_send w (n_send s))) 0) as [Hr|Hr].
    + destruct (work_fn_failed cfg w (set_work_pending None s) Hr)
        as (_ & _ & Hopen & Hcfd & _).
      cbn in Hopen, Hcfd. rewrite Hopen, Hcfd, Hfd.
      rewrite (singleton_only_closed _ _ Hsub).
      split; [apply empty_subseteq|]. split; [reflexivity|].
      split; [congruence | now intros _].
    + rewrite (work_fn_sent cfg w (set_work_pending None s) Hr). cbn.
      split; [exact Hsub|]. split; [discriminate|].
      split; [congruence | now intros _].
Qed.

End Descriptors.

(** X8: the program does not leak its socket.  In every run from boot the
    only descriptor it can hold open is the one [socket] returned, and
    whenever the work item is not pending (before the connection, after a
    failed [connect], after a failed [send]) no descriptor is open. *)
Theorem descriptor_never_leaks (cfg : config) (w : world) (ins : list input) :
  let sys := run cfg w boot_system ins in
  open_fds (mem sys) ⊆ {[fst (os_socket w)]}
  /\ (work_pending (mem sys) = None -> open_fds (mem sys) = ∅).
Proof.
  intros sys.
  assert (descriptor_inv w sys) as (H1 & H2 & _); [|auto].
  apply run_invariant with (I := descriptor_inv w).
  - apply descriptor_inv_action.
  - repeat split; try discriminate; auto.
Qed.

Lemma descriptor_never_leaks_witness :
  let cfg := scenario_config false in
  let w := world_third_send_fails in
  let sys := run cfg w boot_system [Boot; WorkTimeout; WorkTimeout; WorkTimeout] in
  work_pending (mem sys) = None /\ open_fds (mem sys) = ∅.
Proof.
  intros cfg w sys.
  assert (work_pending (mem sys) = None) as Hp by reflexivity.
  destruct (descriptor_never_leaks cfg w [Boot; WorkTimeout; WorkTimeout; WorkTimeout])
    as [_ Hnone].
  split; [exact Hp | exact (Hnone Hp)].
Defined.

(** ** Streaming *)

Definition is_timeout (i : input) : bool :=
  match i with WorkTimeout => true | _ => false end.

Section Streaming.

Variable cfg : config.
Variable w : world.

Lemma run_app (sys : system) (ins1 ins2 : list input) :
  run cfg w sys (ins1 ++ ins2) = run cfg w (run cfg w sys ins1) ins2.
Proof. unfold run. apply fold_left_app. Qed.

(** Expiries of a timer that is not pending do nothing. *)
Lemma run_idle (sys : system) (n : nat) :
  work_pending (mem sys) = None ->
  run cfg w sys (replicate n WorkTimeout) = sys.
Proof.
  intros Hp. induction n as [|n IH]; [reflexivity|].
  cbn [replicate run fold_left step]. rewrite Hp. exact IH.
Qed.

(** [n] expiries while every [send] succeeds. *)
Lemma run_streaming (n : nat) (sys : system) :
  work_pending (mem sys) <> None ->
  (forall k, n_send (mem sys) <= k < n_send (mem sys) + n -> (0 <= fst (os_send w k))%Z) ->
  let sys' := run cfg w sys (replicate n WorkTimeout) in
  n_send (mem sys') = n_send (mem sys) + n
  /\ length (only is_send (trace (mem sys'))) = length (only is_send (trace (mem sys))) + n
  /\ only is_close (trace (mem sys')) = only is_close (trace (mem sys))
  /\ work_pending (mem sys') <> None
  /\ (0 < n -> work_pending (mem sys') =
               Some (K_SECONDS (CONFIG_TCP_DATA_UPLOAD_FREQUENCY_SECONDS cfg)))
  /\ open_fds (mem sys') = open_fds (mem sys)
  /\ client_fd (mem sys') = client_fd (mem sys)
  /\ pc sys' = pc sys.
Proof.
  revert sys. induction n as [|n IH]; intros sys Hp Hok.
  - cbn. rewrite !Nat.add_0_r. repeat split; auto. lia.
  - cbn [replicate run fold_left].
    change (fold_left (step cfg w) (replicate n WorkTimeout) ?z)
      with (run cfg w z (replicate n WorkTimeout)).
    destruct (work_pending (mem sys)) as [d|] eqn:Hd; [|contradiction].
    assert (0 <= fst (os_send w (n_send (mem sys))))%Z as Hr by (apply Hok; lia).
    assert (step cfg w sys WorkTimeout =
              {| mem := exec (server_transmission_work_fn cfg w)
                          (set_work_pending None (mem sys));
                 pc := pc sys |}) as Hstep
      by (unfold step; now rewrite Hd).
    rewrite Hstep.
    pose proof (work_fn_sent cfg w (set_work_pending None (mem sys)) Hr) as Hsent.
    set (sys1 := {| mem := exec (server_transmission_work_fn cfg w)
                             (set_work_pending None (mem sys));
                    pc := pc sys |}).
    assert (n_send (mem sys1) = S (n_send (mem sys))) as Hn1
      by (unfold sys1; cbn [mem]; now rewrite Hsent).
    assert (work_pending (mem sys1) =
              Some (K_SECONDS (CONFIG_TCP_DATA_UPLOAD_FREQUENCY_SECONDS cfg))) as Hp1
      by (unfold sys1; cbn [mem]; now rewrite Hsent).
    assert (open_fds (mem sys1) = open_fds (mem sys)
            /\ client_fd (mem sys1) = client_fd (mem sys)) as [Ho1 Hf1]
      by (unfold sys1; cbn [mem]; now rewrite Hsent).
    assert (trace (mem sys1) =
              trace (mem sys) ++ announce cfg
              ++ [the_send cfg w (mem sys);
                  WorkSubmit (K_SECONDS (CONFIG_TCP_DATA_UPLOAD_FREQUENCY_SECONDS cfg))])
      as Ht1 by (unfold sys1; cbn [mem]; now rewrite Hsent).
    destruct (IH sys1) as (Hn & Hs & Hc & Hpn & Hpk & Ho & Hf & Hpc).
    { rewrite Hp1. discriminate. }
    { intros k Hk. apply Hok. lia. }
    cbn zeta in *.
    rewrite Hn, Hs, Hc, Ho, Hf, Hpc, Hn1, Ho1, Hf1, Ht1, !only_app, !length_app.
    cbn. rewrite app_nil_r.
    repeat split; try lia; auto.
    intros _. destruct n as [|n]; [exact Hp1 | apply Hpk; lia].
Qed.

End Streaming.

(** X9: streaming.  From any state in which the work item is pending, if
    the next n [send] calls all return a non-negative value, then n expiries
    of the timer make exactly n [send] calls and no [close]; the descriptor
    stays open and in [client_fd], and the work item is pending again, with
    the configured interval. *)
Theorem streaming_continues (cfg : config) (w : world) (sys : system) (n : nat) :
  work_pending (mem sys) <> None ->
  (forall k, n_send (mem sys) <= k < n_send (mem sys) + n -> (0 <= fst (os_send w k))%Z) ->
  let sys' := run cfg w sys (replicate n WorkTimeout) in
  length (only is_send (trace (mem sys'))) = length (only is_send (trace (mem sys))) + n
  /\ only is_close (trace (mem sys')) = only is_close (trace (mem sys))
  /\ (0 < n -> work_pending (mem sys') =
               Some (K_SECONDS (CONFIG_TCP_DATA_UPLOAD_FREQUENCY_SECONDS cfg)))
  /\ open_fds (mem sys') = open_fds (mem sys)
  /\ client_fd (mem sys') = client_fd (mem sys).
Proof.
  intros Hp Hok.
  destruct (run_streaming cfg w n sys Hp Hok) as (_ & Hs & Hc & _ & Hpk & Ho & Hf & _).
  auto.
Qed.

Lemma streaming_continues_witness :
  let cfg := scenario_config false in
  let w := world_partial_send in
  let sys := run cfg w boot_system [Boot] in
  let sys' := run cfg w sys (replicate 5 WorkTimeout) in
  work_pending (mem sys) <> None
  /\ (forall k, n_send (mem sys) <= k < n_send (mem sys) + 5 -> (0 <= fst (os_send w k))%Z)
  /\ length (only is_send (trace (mem sys'))) = 5
  /\ work_pending (mem sys') = Some (K_SECONDS 60).
Proof.
  intros cfg w sys sys'.
  assert (work_pending (mem sys) <> None) as Hp by discriminate.
  assert (forall k, n_send (mem sys) <= k < n_send (mem sys) + 5 ->
                    (0 <= fst (os_send w k))%Z) as Hok by (intros k _; discriminate).
  destruct (streaming_continues cfg w sys 5 Hp Hok) as (Hs & _ & Hpk & _).
  split; [exact Hp|]. split; [exact Hok|].
  split; [exact Hs | apply Hpk; lia].
Defined.

(** X10: the first failure ends the streaming.  From any state in which the
    work item is pending, if the next K [send] calls succeed and the one
    after them returns a negative value, then any number n > K of expiries
    of the timer makes exactly K + 1 [send] calls: afterwards the work item
    is not pending and the descriptor that was in [client_fd] is not
    open. *)
Theorem streaming_stops_at_first_failure
    (cfg : config) (w : world) (sys : system) (K n : nat) :
  work_pending (mem sys) <> None ->
  (forall k, n_send (mem sys) <= k < n_send (mem sys) + K -> (0 <= fst (os_send w k))%Z) ->
  (fst (os_send w (n_send (mem sys) + K)) < 0)%Z ->
  K < n ->
  let sys' := run cfg w sys (replicate n WorkTimeout) in
  length (only is_send (trace (mem sys'))) = length (only is_send (trace (mem sys))) + K + 1
  /\ length (only is_close (trace (mem sys'))) =
       length (only is_close (trace (mem sys))) + 1
  /\ work_pending (mem sys') = None
  /\ (client_fd (mem sys) ∉ open_fds (mem sys')).
Proof.
  intros Hp Hok Hfail HKn sys'.
  assert (replicate n WorkTimeout =
            replicate K WorkTimeout ++ WorkTimeout :: replicate (n - K - 1) WorkTimeout) as Hsplit.
  { replace n with (K + S (n - K - 1)) at 1 by lia.
    now rewrite replicate_add. }
  subst sys'. rewrite Hsplit, run_app.
  destruct (run_streaming cfg w K sys Hp Hok) as (Hn & Hs & Hc & Hpn & _ & Ho & Hf & _).
  cbn zeta in *.
  set (sysK := run cfg w sys (replicate K WorkTimeout)) in *.
  cbn [run fold_left].
  change (fold_left (step cfg w) (replicate (n - K - 1) WorkTimeout) ?z)
    with (run cfg w z (replicate (n - K - 1) WorkTimeout)).
  destruct (work_pending (mem sysK)) as [d|] eqn:Hd; [|contradiction].
  assert (step cfg w sysK WorkTimeout =
            {| mem := exec (server_transmission_work_fn cfg w)
                        (set_work_pending None (mem sysK));
               pc := pc sysK |}) as ->
    by (unfold step; now rewrite Hd).
  assert (fst (os_send w (n_send (set_work_pending None (mem sysK)))) < 0)%Z as Hr
    by (cbn; now rewrite Hn).
  destruct (work_fn_failed cfg w (set_work_pending None (mem sysK)) Hr)
    as (Htr & Hwp & Hopen & _).
  cbn in Htr, Hwp, Hopen.
  rewrite run_idle by exact Hwp. cbn [mem].
  rewrite Htr, Hopen, Hf, !only_app, !length_app, Hs, Hc. cbn.
  repeat split; try lia; try exact Hwp.
  intros [_ Hnot]%elem_of_difference. apply Hnot. now apply elem_of_singleton.
Qed.

Lemma streaming_stops_at_first_failure_witness :
  let cfg := scenario_config false in
  let w := world_third_send_fails in
  let sys := run cfg w boot_system [Boot] in
  let sys' := run cfg w sys (replicate 7 WorkTimeout) in
  work_pending (mem sys) <> None
  /\ (fst (os_send w (n_send (mem sys) + 2)) < 0)%Z
  /\ length (only is_send (trace (mem sys'))) = 3
  /\ work_pending (mem sys') = None.
Proof.
  intros cfg w sys sys'.
  assert (work_pending (mem sys) <> None) as Hp by discriminate.
  assert (forall k, n_send (mem sys) <= k < n_send (mem sys) + 2 ->
                    (0 <= fst (os_send w k))%Z) as Hok.
  { intros k Hk. change (n_send (mem sys)) with 0 in Hk.
    destruct k as [|[|k]]; [discriminate | discriminate | lia]. }
  assert (fst (os_send w (n_send (mem sys) + 2)) < 0)%Z as Hfail by reflexivity.
  destruct (streaming_stops_at_first_failure cfg w sys 2 7 Hp Hok Hfail ltac:(lia))
    as (Hs & _ & Hnone & _).
  split; [exact Hp|]. split; [exact Hfail|]. split; [exact Hs | exact Hnone].
Defined.

(** ** Sends and timer expiries *)

Section Sends.

Variable cfg : config.
Variable w : world.

Lemma step_sends (x : system) (i : input) :
  length (only is_send (trace (mem (step cfg w x i)))) <=
    length (only is_send (trace (mem x))) + (if is_timeout i then 1 else 0).
Proof.
  assert (forall y, length (only is_send (trace (mem (wake cfg w y)))) =
                    length (only is_send (trace (mem y)))) as Hwake.
  { intros [s p]. unfold wake. cbn [pc mem].
    destruct p; try reflexivity. destruct (lte_connected s) eqn:Hc; [reflexivity|].
    cbn [mem].
    destruct (main_after_wait_trace cfg w
                (emit (SemTake K_FOREVER) (set_lte_connected n s))) as (-> & _).
    cbn. rewrite !only_app, !length_app.
    rewrite (only_none is_send is_session_call (session_events cfg w _))
      by first [apply session_calls | intros []; cbn; congruence].
    cbn. lia. }
  destruct x as [s p]. destruct i; cbn [step pc mem is_timeout].
  - destruct p; cbn [mem]; try lia.
    destruct (CONFIG_LTE_LINK_CONTROL cfg).
    + rewrite Hwake. cbn [mem]. rewrite main_until_wait_exec. cbn.
      rewrite only_app, length_app.
      rewrite (only_none is_send is_startup_call (startup_events cfg w))
        by first [apply startup_calls | intros []; cbn; congruence].
      cbn. lia.
    + cbn [mem].
      destruct (main_after_wait_trace cfg w (exec (main_until_wait cfg w) s)) as (-> & _).
      rewrite main_until_wait_exec. cbn. rewrite !only_app, !length_app.
      rewrite (only_none is_send is_startup_call (startup_events cfg w))
        by first [apply startup_calls | intros []; cbn; congruence].
      rewrite (only_none is_send is_session_call (session_events cfg w _))
        by first [apply session_calls | intros []; cbn; congruence].
      cbn. lia.
  - destruct (lte_evt_handler s); [|cbn [mem]; lia].
    rewrite Hwake. cbn [mem].
    destruct (is_registration evt) eqn:Hreg.
    + destruct (lte_handler_registration w evt s Hreg) as [msg ->]. cbn.
      rewrite only_app, length_app. cbn. lia.
    + destruct (lte_handler_other w evt s Hreg) as (logs & -> & Hlogs & _). cbn.
      rewrite only_app, length_app.
      rewrite (only_none is_send is_printk logs)
        by first [exact Hlogs | intros []; cbn; congruence].
      cbn. lia.
  - destruct (work_pending s); [|cbn [mem]; lia]. cbn [mem].
    destruct (work_fn_trace cfg w (set_work_pending None s)) as (-> & _).
    cbn. rewrite only_app, length_app.
    unfold firing_events, announce, the_send.
    destruct (fst (os_send w (n_send (set_work_pending None s))) <? 0)%Z; cbn; lia.
Qed.

End Sends.

(** X11: data is sent on timer expiries only.  In every run from boot the
    number of [send] calls is at most the number of expiries of the work
    item's timer among the inputs; booting and LTE events never send. *)
Theorem sends_only_on_timer_expiry (cfg : config) (w : world) (ins : list input) :
  length (only is_send (trace (mem (run cfg w boot_system ins))))
  <= length (List.filter is_timeout ins).
Proof.
  assert (forall x ins',
            length (only is_send (trace (mem (run cfg w x ins')))) <=
              length (only is_send (trace (mem x))) + length (List.filter is_timeout ins'))
    as Hgen.
  { intros x ins'. revert x. induction ins' as [|i ins' IH]; intros x.
    - cbn. lia.
    - cbn [run fold_left List.filter].
      change (fold_left (step cfg w) ins' ?z) with (run cfg w z ins').
      pose proof (IH (step cfg w x i)) as H1.
      pose proof (step_sends cfg w x i) as H2.
      destruct (is_timeout i); cbn [length] in *; lia. }
  apply (Hgen boot_system ins).
Qed.

(** ** From registration to streaming *)

Section LinkUp.

Variable cfg : config.
Variable w : world.

(** LTE events after [main] has returned change neither the session nor
    the work item. *)
Lemma returned_events (evs : list lte_lc_evt) (sys : system) :
  pc sys = MainReturned ->
  let sys' := run cfg w sys (map LteEvent evs) in
  pc sys' = MainReturned
  /\ footprint (mem sys') = footprint (mem sys)
  /\ work_pending (mem sys') = work_pending (mem sys).
Proof.
  revert sys. induction evs as [|evt evs IH]; intros [s p] Hpc; cbn [pc] in Hpc; subst p.
  - cbn. auto.
  - cbn [map run fold_left step mem pc].
    change (fold_left (step cfg w) (map LteEvent evs) ?z)
      with (run cfg w z (map LteEvent evs)).
    destruct (lte_evt_handler s); [|now apply (IH {| mem := s; pc := MainReturned |})].
    unfold wake. cbn [pc mem].
    destruct (IH {| mem := exec (lte_handler w evt) s; pc := MainReturned |} eq_refl)
      as (H1 & H2 & H3).
    destruct (handler_footprint w evt s) as [Hfoot Hwp].
    cbn zeta in *. cbn [mem] in *.
    split; [exact H1|]. split; congruence.
Qed.

Lemma blocked_then_connected (evs : list lte_lc_evt) (sys : system) :
  (0 <= fst (os_socket w))%Z ->
  (0 <= fst (os_connect w (fst (os_socket w))))%Z ->
  pc sys = MainBlocked ->
  lte_connected (mem sys) = 0 ->
  lte_evt_handler (mem sys) = true ->
  only is_send (trace (mem sys)) = [] ->
  existsb is_registration evs = true ->
  let sys' := run cfg w sys (map LteEvent evs) in
  pc sys' = MainReturned
  /\ work_pending (mem sys') = Some K_NO_WAIT
  /\ client_fd (mem sys') = fst (os_socket w)
  /\ fst (os_socket w) ∈ open_fds (mem sys')
  /\ only is_send (trace (mem sys')) = [].
Proof.
  intros Hfd Hrc. revert sys.
  induction evs as [|evt evs IH]; intros [s p] Hpc Hc Hh Hsends Hreg;
    cbn [pc mem] in *; [discriminate Hreg|]. subst p.
  cbn [map run fold_left step mem pc]. rewrite Hh.
  change (fold_left (step cfg w) (map LteEvent evs) ?z)
    with (run cfg w z (map LteEvent evs)).
  cbn [existsb] in Hreg.
  destruct (is_registration evt) eqn:Hevt.
  - destruct (lte_handler_registration w evt s Hevt) as [msg Hexec].
    unfold wake. cbn [pc mem]. rewrite Hexec, Hc.
    cbn [lte_connected append_trace set_lte_connected Nat.min lte_connected_limit].
    match goal with
    | |- context [run cfg w ?x _] => set (woken := x)
    end.
    destruct (returned_events evs woken eq_refl) as (Hret & Hfoot & Hwp).
    cbn zeta in *. unfold footprint in Hfoot.
    assert (work_pending (mem woken) = Some K_NO_WAIT
            /\ client_fd (mem woken) = fst (os_socket w)
            /\ client_fd (mem woken) ∈ open_fds (mem woken)) as (Hp & Hcfd & Hopen)
      by (unfold woken; cbn [mem]; now apply main_after_wait_connected).
    assert (only is_send (trace (mem woken)) = []) as Hnone.
    { unfold woken. cbn [mem].
      match goal with
      | |- context [exec (main_after_wait cfg w) ?x] =>
          destruct (main_after_wait_trace cfg w x) as (-> & _)
      end.
      cbn. rewrite !only_app, Hsends.
      rewrite (only_none is_send is_session_call (session_events cfg w _))
        by first [apply session_calls | intros []; cbn; congruence].
      reflexivity. }
    split; [exact Hret|]. split; [congruence|].
    split; [congruence|].
    split; [replace (open_fds (mem (run cfg w woken (map LteEvent evs))))
              with (open_fds (mem woken)) by congruence; congruence|].
    rewrite <- (only_only is_send not_report) by (intros []; cbn; congruence).
    replace (only not_report (trace (mem (run cfg w woken (map LteEvent evs)))))
      with (only not_report (trace (mem woken))) by congruence.
    rewrite only_only by (intros []; cbn; congruence). exact Hnone.
  - destruct (lte_handler_other w evt s Hevt) as (logs & Hexec & Hlogs & _).
    unfold wake. cbn [pc mem]. rewrite Hexec. cbn [lte_connected append_trace].
    rewrite Hc.
    apply (IH {| mem := append_trace logs s; pc := MainBlocked |}); cbn; auto.
    rewrite only_app, Hsends.
    apply (only_none is_send is_printk); [intros []; cbn; congruence | exact Hlogs].
Qed.

End LinkUp.

(** X12: from registration to streaming.  With link control, without
    automatic modem connection, and with [socket] and [connect] succeeding:
    once a registration event is among the LTE events delivered after boot,
    [main] has returned, the connected descriptor is open and held in
    [client_fd], nothing has been sent yet, and the work item is pending
    with [K_NO_WAIT], for the first transmission. *)
Theorem registration_starts_streaming (cfg : config) (w : world) (evs : list lte_lc_evt) :
  CONFIG_LTE_LINK_CONTROL cfg = true ->
  CONFIG_LTE_AUTO_INIT_AND_CONNECT cfg = false ->
  (0 <= fst (os_socket w))%Z ->
  (0 <= fst (os_connect w (fst (os_socket w))))%Z ->
  existsb is_registration evs = true ->
  let sys := run cfg w boot_system (Boot :: map LteEvent evs) in
  pc sys = MainReturned
  /\ work_pending (mem sys) = Some K_NO_WAIT
  /\ client_fd (mem sys) = fst (os_socket w)
  /\ fst (os_socket w) ∈ open_fds (mem sys)
  /\ only is_send (trace (mem sys)) = [].
Proof.
  intros Hlink Hauto Hfd Hrc Hreg sys. subst sys.
  cbn [run fold_left].
  change (fold_left (step cfg w) (map LteEvent evs) ?z)
    with (run cfg w z (map LteEvent evs)).
  assert (step cfg w boot_system Boot =
            {| mem := exec (main_until_wait cfg w) initial_state; pc := MainBlocked |}) as ->.
  { unfold step, boot_system. cbn [pc mem]. rewrite Hlink.
    unfold wake. cbn [pc mem]. now rewrite main_until_wait_exec. }
  apply blocked_then_connected; cbn [pc mem]; try assumption; try reflexivity;
    rewrite main_until_wait_exec; cbn.
  - reflexivity.
  - now rewrite Hlink, Hauto.
  - apply (only_none is_send is_startup_call);
      [intros []; cbn; congruence | apply startup_calls].
Qed.

Lemma registration_starts_streaming_witness :
  let cfg := scenario_config true in
  let w := world_third_send_fails in
  let evs := [LTE_LC_EVT_CELL_UPDATE 7 9;
              LTE_LC_EVT_NW_REG_STATUS LTE_LC_NW_REG_REGISTERED_HOME;
              LTE_LC_EVT_RRC_UPDATE LTE_LC_RRC_MODE_IDLE] in
  let sys := run cfg w boot_system (Boot :: map LteEvent evs) in
  CONFIG_LTE_LINK_CONTROL cfg = true
  /\ CONFIG_LTE_AUTO_INIT_AND_CONNECT cfg = false
  /\ (0 <= fst (os_socket w))%Z
  /\ (0 <= fst (os_connect w (fst (os_socket w))))%Z
  /\ existsb is_registration evs = true
  /\ work_pending (mem sys) = Some K_NO_WAIT.
Proof.
  intros cfg w evs sys.
  assert (0 <= fst (os_socket w))%Z as Hfd by discriminate.
  assert (0 <= fst (os_connect w (fst (os_socket w))))%Z as Hrc by discriminate.
  destruct (registration_starts_streaming cfg w evs eq_refl eq_refl Hfd Hrc eq_refl)
    as (_ & Hp & _).
  repeat split; try assumption.
Defined.
